(** * Blueprint UI components: MenuItem, Select, Omnibar and NumericInput examples

    A shallow embedding of

    - [packages/core/src/components/menu/menuItem.tsx] (the [MenuItem]
      component: [render], [maybeRenderLabel], [maybeRenderPopover],
      [DISABLED_PROPS], [SUBMENU_POPOVER_MODIFIERS], [defaultProps]),
    - [packages/docs-app/src/examples/select-examples/omnibarExample.tsx]
      (the event handlers of [OmnibarExample]),
    - [packages/docs-app/src/examples/core-examples/numericInputBasicExample.tsx]
      (the state and the event handlers of [NumericInputBasicExample]),
    - the [<Select>] test suite, whose component is modelled from the
      specification,

    together with the properties stated about them. *)

From Stdlib Require Import Ascii.
From stdpp Require Import gmap strings list fin_maps pretty.

#[local] Set Warnings "-register-all,-clear-no-such-hyp".
#[local] Open Scope Z_scope.

(** ** JavaScript values and objects *)

Module Js.

(** The values that flow through the components.  A prop bag is a
    JavaScript object, that is a finite map from property names to
    values; a property that is present with the value [undefined]
    is a binding to [VUndef].  Callbacks and component classes are
    known by identity only.  A React element keeps its type and its
    props ([children] included, as React stores them). *)
Inductive JsVal :=
| VUndef
| VNull
| VBool (b : bool)
| VNum (n : Z)
| VStr (s : string)
| VFun (id : nat)
| VComp (name : string)
| VArr (items : list JsVal)
| VObj (fields : gmap string JsVal)
| VElement (type : JsVal) (props : gmap string JsVal).

Abbreviation Obj := (gmap string JsVal).

(** [o.k]: reading a missing property gives [undefined]. *)
Definition get (o : Obj) (k : string) : JsVal := default VUndef (o !! k).

(** [ToBoolean]. *)
Definition truthy (v : JsVal) : bool :=
  match v with
  | VUndef | VNull => false
  | VBool b => b
  | VNum n => negb (n =? 0)
  | VStr s => negb (String.eqb s "")
  | _ => true
  end.

(** [v == null], true of [null] and [undefined] only. *)
Definition nullish (v : JsVal) : bool :=
  match v with VUndef | VNull => true | _ => false end.

(** [v === undefined]. *)
Definition is_undefined (v : JsVal) : bool :=
  match v with VUndef => true | _ => false end.

(** [v === "s"] for a string literal. *)
Definition is_string (s : string) (v : JsVal) : bool :=
  match v with VStr s' => String.eqb s' s | _ => false end.

(** [a && b] and [a ?? b] return one of their operands. *)
Definition js_and (a b : JsVal) : JsVal := if truthy a then b else a.
Definition coalesce (a b : JsVal) : JsVal := if nullish a then b else a.

(** [!a] and [Boolean(a)]. *)
Definition js_not (a : JsVal) : JsVal := VBool (negb (truthy a)).
Definition Boolean (a : JsVal) : JsVal := VBool (truthy a).

(** A destructuring default, [const { k = d } = o]: the default is
    taken when the property reads [undefined], not when it is [null]. *)
Definition get_default (o : Obj) (k : string) (d : JsVal) : JsVal :=
  if is_undefined (get o k) then d else get o k.

(** The rest of a destructuring pattern, [const { k1, ..., kn, ...rest } = o]. *)
Definition omit (ks : list string) (o : Obj) : Obj := foldr delete o ks.

(** The own enumerable properties copied by [{ ...v }].  Strings and
    arrays contribute their indices; [undefined], [null], booleans,
    numbers and functions contribute nothing. *)
Definition own_props (v : JsVal) : Obj :=
  match v with
  | VObj m => m
  | VArr l => list_to_map (imap (λ i x, (pretty i, x)) l)
  | VStr s =>
      list_to_map
        (imap (λ i c, (pretty i, VStr (String c ""))) (String.list_ascii_of_string s))
  | VElement t p => {[ "type" := t; "props" := VObj p ]}
  | _ => ∅
  end.

(** [{ ...o, ...ext }]: later properties win. *)
Definition assign (o ext : Obj) : Obj := ext ∪ o.

(** [{ ...o, ...v }] for a value [v] that may be [undefined]. *)
Definition spread (o : Obj) (v : JsVal) : Obj := assign o (own_props v).

(** [v?.k]. *)
Definition opt_get (v : JsVal) (k : string) : JsVal :=
  if nullish v then VUndef else get (own_props v) k.

(** *** The [classnames] package *)

(** An argument of [classNames]: a plain value, or an object literal
    [{ [k1]: v1, ..., [kn]: vn }] whose keys are class names. *)
Inductive ClassValue :=
| CVal (v : JsVal)
| CDict (entries : list (string * JsVal)).

Definition appendClass (value newClass : string) : string :=
  if String.eqb newClass "" then value
  else if String.eqb value "" then newClass
  else value +:+ " " +:+ newClass.

(** An object literal keeps its keys in insertion order; a repeated
    key keeps its first position and takes the last value. *)
Fixpoint obj_set (k : string) (v : JsVal) (o : list (string * JsVal))
  : list (string * JsVal) :=
  match o with
  | [] => [(k, v)]
  | (k', v') :: o' =>
      if String.eqb k k' then (k, v) :: o' else (k', v') :: obj_set k v o'
  end.

Definition obj_literal (entries : list (string * JsVal)) : list (string * JsVal) :=
  fold_left (λ o kv, obj_set kv.1 kv.2 o) entries [].

(** Strings and numbers are taken as they are, the keys of an object
    literal are taken when their value is truthy.  Booleans and
    functions give the empty string.  Arrays and objects held in a
    [JsVal] are outside the types of the call sites of this file
    ([string | undefined] everywhere) and give the empty string here. *)
Definition parseValue (arg : ClassValue) : string :=
  match arg with
  | CVal (VStr s) => s
  | CVal (VNum n) => pretty n
  | CVal _ => ""
  | CDict entries =>
      fold_left (λ classes kv, if truthy kv.2 then appendClass classes kv.1 else classes)
                (obj_literal entries) ""
  end.

Definition arg_truthy (arg : ClassValue) : bool :=
  match arg with CVal v => truthy v | CDict _ => true end.

Definition classNames (args : list ClassValue) : string :=
  fold_left (λ classes arg,
               if arg_truthy arg then appendClass classes (parseValue arg) else classes)
            args "".

(** The class list of an element: the tokens of its [class]
    attribute, which ASCII whitespace separates. *)
Definition is_ascii_whitespace (a : Ascii.ascii) : bool :=
  match a with
  | "009" | "010" | "012" | "013" | " " => true
  | _ => false
  end%char.

Definition flush_token (cur : string) : list string :=
  if String.eqb cur "" then [] else [cur].

Fixpoint split_on_whitespace (cur : string) (s : string) : list string :=
  match s with
  | EmptyString => flush_token cur
  | String a s' =>
      if is_ascii_whitespace a
      then flush_token cur ++ split_on_whitespace "" s'
      else split_on_whitespace (cur +:+ String a "") s'
  end.

Definition class_list (className : string) : list string :=
  split_on_whitespace "" className.

Definition has_class (c : string) (className : string) : Prop :=
  c ∈ class_list className.

(** The classes an argument of [classNames] contributes. *)
Definition arg_classes (arg : ClassValue) : list string :=
  if arg_truthy arg then class_list (parseValue arg) else [].

#[global] Instance has_class_dec c s : Decision (has_class c s).
Proof. unfold has_class. apply _. Defined.

End Js.

(** ** React elements *)

Module React.
Import Js.

(** [React.createElement(type, config, ...children)]: the element
    with the props that the caller passes.  With one child the child
    itself is stored under [children], with several the array of
    them, with none the [children] of [config] is kept.  The
    [defaultProps] of the element type, which React fills in for the
    props that read [undefined], belong to components outside the
    files embedded here and are not filled in: a prop that reads
    [undefined] here is a prop that the caller leaves to those
    defaults.  ([key] and [ref] never occur in [this.props]; they are
    not told apart from the other props here.) *)
Definition createElement (type : JsVal) (config : Obj) (children : list JsVal) : JsVal :=
  VElement type
    match children with
    | [] => config
    | [c] => <["children" := c]> config
    | cs => <["children" := VArr cs]> config
    end.

Definition elem_type (e : JsVal) : JsVal :=
  match e with VElement t _ => t | _ => VUndef end.

Definition elem_props (e : JsVal) : Obj :=
  match e with VElement _ p => p | _ => ∅ end.

(** The [i]-th child of an element created with several children. *)
Definition nth_child (i : nat) (e : JsVal) : JsVal :=
  match get (elem_props e) "children" with
  | VArr cs => default VUndef (cs !! i)
  | _ => VUndef
  end.

(** React fills in [defaultProps] for every prop that reads [undefined]. *)
Definition resolveDefaultProps (defaults config : Obj) : Obj :=
  merge (λ c d, match d with
                | Some dv => if is_undefined (default VUndef c) then Some dv else c
                | None => c
                end)
        config defaults.

End React.

(** ** The MenuItem component ([menuItem.tsx]) *)

Module MenuItem.
Import Js React.

(** The class-name constants of [Classes] and its [intentClass]
    function are declared in [common/classes], outside the files
    embedded here; they are parameters of the component. *)
Record ClassesT := {
  ACTIVE : string;
  DISABLED : string;
  FILL : string;
  MENU_ITEM : string;
  MENU_ITEM_ICON : string;
  MENU_ITEM_LABEL : string;
  MENU_SUBMENU : string;
  MENU_SUBMENU_ICON : string;
  POPOVER_DISMISS : string;
  SELECTED : string;
  intentClass : JsVal → JsVal;
}.

(** A mounted component: [this.props], and the other instance fields
    that [AbstractPureComponent] carries. *)
Record Instance := {
  props : Obj;
  state : JsVal;
  context : JsVal;
}.

(** [MenuItem.defaultProps]. *)
Definition defaultProps : Obj :=
  list_to_map
    [ ("active", VBool false);
      ("disabled", VBool false);
      ("multiline", VBool false);
      ("popoverProps", VObj ∅);
      ("selected", VUndef);
      ("shouldDismissPopover", VBool true);
      ("text", VStr "") ].

(** The instance React creates for [<MenuItem {...config} />]. *)
Definition mount (config : Obj) : Instance :=
  {| props := resolveDefaultProps defaultProps config;
     state := VUndef;
     context := VUndef |}.

Definition SUBMENU_POPOVER_MODIFIERS : JsVal :=
  let boundary : JsVal :=
    VObj (list_to_map
            [ ("options", VObj (list_to_map [ ("rootBoundary", VStr "viewport");
                                              ("padding", VNum 20) ]));
              ("enabled", VBool true) ]) in
  VObj (list_to_map
          [ ("flip", boundary);
            ("offset",
              VObj (list_to_map
                      [ ("options", VObj (list_to_map [ ("offset", VArr [VNum (-5); VNum 0]) ]));
                        ("enabled", VBool true) ]));
            ("preventOverflow", boundary) ]).

(** Props to ignore when disabled. *)
Definition DISABLED_PROPS : Obj :=
  list_to_map
    [ ("href", VUndef);
      ("onClick", VUndef);
      ("onMouseDown", VUndef);
      ("onMouseEnter", VUndef);
      ("onMouseLeave", VUndef);
      ("tabIndex", VNum (-1)) ].

(** The names bound by the destructuring pattern of [render]; the rest
    of [this.props] is [htmlProps]. *)
Definition DESTRUCTURED : list string :=
  [ "active"; "className"; "children"; "disabled"; "intent"; "labelClassName";
    "labelElement"; "multiline"; "popoverProps"; "roleStructure"; "selected";
    "shouldDismissPopover"; "submenuProps"; "text"; "textClassName"; "tagName";
    "htmlTitle" ].

Section Render.
Variable Classes : ClassesT.

Definition htmlProps (this : Instance) : Obj := omit DESTRUCTURED (props this).

Definition roleStructure (this : Instance) : JsVal :=
  get_default (props this) "roleStructure" (VStr "menuitem").

Definition tagName (this : Instance) : JsVal :=
  get_default (props this) "tagName" (VStr "a").

(** [[liRole, targetRole, icon, ariaSelected]]. *)
Definition roles (this : Instance) : JsVal * JsVal * JsVal * JsVal :=
  let selected := get (props this) "selected" in
  if is_string "listoption" (roleStructure this)
  then (* "listoption": parent has listbox role, or is a <select> *)
    ( VStr "option",
      VUndef,
      coalesce (get (props this) "icon")
               (if is_undefined selected then VUndef
                else if truthy selected then VStr "small-tick" else VStr "blank"),
      Boolean selected )
  else (* "menuitem": parent has menu role *)
    ( VStr "none",
      VStr "menuitem",
      get (props this) "icon",
      VUndef ).

Definition liRole (this : Instance) : JsVal := (roles this).1.1.1.
Definition targetRole (this : Instance) : JsVal := (roles this).1.1.2.
Definition icon (this : Instance) : JsVal := (roles this).1.2.
Definition ariaSelected (this : Instance) : JsVal := (roles this).2.

Definition hasIcon (this : Instance) : bool := negb (nullish (icon this)).
Definition hasSubmenu (this : Instance) : bool :=
  negb (nullish (get (props this) "children")).

Definition anchorClasses (this : Instance) : string :=
  let active := get (props this) "active" in
  let disabled := get (props this) "disabled" in
  let shouldDismissPopover := get (props this) "shouldDismissPopover" in
  let intentClass := Classes.(intentClass) (get (props this) "intent") in
  classNames
    [ CVal (VStr Classes.(MENU_ITEM));
      CVal intentClass;
      CDict
        [ (Classes.(ACTIVE), active);
          (Classes.(DISABLED), disabled);
          (* prevent popover from closing when clicking on submenu trigger or disabled item *)
          (Classes.(POPOVER_DISMISS),
            js_and (js_and shouldDismissPopover (js_not disabled))
                   (js_not (VBool (hasSubmenu this))));
          (Classes.(SELECTED), js_and active (VBool (is_undefined intentClass))) ];
      CVal (get (props this) "className") ].

Definition maybeRenderLabel (this : Instance) (labelElement : JsVal) : JsVal :=
  let label := get (props this) "label" in
  let labelClassName := get (props this) "labelClassName" in
  if nullish label && nullish labelElement then VNull
  else
    createElement (VStr "span")
      {[ "className" :=
           VStr (classNames [CVal (VStr Classes.(MENU_ITEM_LABEL)); CVal labelClassName]) ]}
      [label; labelElement].

Definition target (this : Instance) : JsVal :=
  let disabled := get (props this) "disabled" in
  createElement (tagName this)
    (<["className" := VStr (anchorClasses this)]>
       (assign
          (assign
             (list_to_map [ ("role", targetRole this); ("tabIndex", VNum 0) ])
             (htmlProps this))
          (if truthy disabled then DISABLED_PROPS else ∅)))
    [ (if hasIcon this
       then
         (* wrap icon in a <span> in case `icon` is a custom element rather
            than a built-in icon identifier *)
         createElement (VStr "span")
           {[ "className" := VStr Classes.(MENU_ITEM_ICON) ]}
           [ createElement (VComp "Icon")
               (list_to_map [ ("icon", icon this);
                              ("aria-hidden", VBool true);
                              ("tabIndex", VNum (-1)) ])
               [] ]
       else VUndef);
      createElement (VComp "Text")
        (list_to_map
           [ ("className",
               VStr (classNames [CVal (VStr Classes.(FILL));
                                 CVal (get (props this) "textClassName")]));
             ("ellipsize", js_not (get (props this) "multiline"));
             ("title", get (props this) "htmlTitle") ])
        [ get (props this) "text" ];
      maybeRenderLabel this (get (props this) "labelElement");
      (if hasSubmenu this
       then
         createElement (VComp "CaretRight")
           (list_to_map [ ("className", VStr Classes.(MENU_SUBMENU_ICON));
                          ("title", VStr "Open sub menu") ])
           []
       else VUndef) ].

Definition maybeRenderPopover (this : Instance) (target children : JsVal) : JsVal :=
  if nullish children then target
  else
    let disabled := get (props this) "disabled" in
    let popoverProps := get (props this) "popoverProps" in
    let submenuProps := get (props this) "submenuProps" in
    createElement (VComp "Popover")
      (<["popoverClassName" :=
           VStr (classNames [CVal (VStr Classes.(MENU_SUBMENU));
                             CVal (opt_get popoverProps "popoverClassName")])]>
         (<["minimal" := VBool true]>
            (<["content" := createElement (VComp "Menu") (spread ∅ submenuProps) [children]]>
               (spread
                  (list_to_map
                     [ ("autoFocus", VBool false);
                       ("captureDismiss", VBool false);
                       ("disabled", disabled);
                       ("enforceFocus", VBool false);
                       ("hoverCloseDelay", VNum 0);
                       ("interactionKind", VStr "hover");
                       ("modifiers", SUBMENU_POPOVER_MODIFIERS);
                       ("placement", VStr "right-start");
                       ("usePortal", VBool false) ])
                  popoverProps))))
      [target].

Definition liClasses (this : Instance) : string :=
  classNames [CDict [ (Classes.(MENU_SUBMENU), VBool (hasSubmenu this)) ]].

Definition render (this : Instance) : JsVal :=
  createElement (VStr "li")
    (list_to_map
       [ ("className", VStr (liClasses this));
         ("role", liRole this);
         ("aria-selected", ariaSelected this) ])
    [ maybeRenderPopover this (target this) (get (props this) "children") ].

End Render.

(** The [class] attribute of the rendered target. *)
Definition targetClassName (Classes : ClassesT) (this : Instance) : string :=
  match get (elem_props (target Classes this)) "className" with
  | VStr s => s
  | _ => ""
  end.

(** The [<li>] holds a [Popover] whose child is the target. *)
Definition wrapped_in_popover (li tgt : JsVal) : Prop :=
  ∃ popoverProps : Obj,
    get (elem_props li) "children" = VElement (VComp "Popover") popoverProps
    ∧ get popoverProps "children" = tgt.

(** The ARIA structure that [roleStructure] alone would decide:
    [option] over a target without role, or [none] over [menuitem]. *)
Definition roles_by_structure (Classes : ClassesT) (this : Instance) : Prop :=
  let li := elem_props (render Classes this) in
  let tgt := elem_props (target Classes this) in
  if is_string "listoption" (get (props this) "roleStructure")
  then get li "role" = VStr "option"
       ∧ get tgt "role" = VUndef
       ∧ get li "aria-selected" = Boolean (get (props this) "selected")
  else get li "role" = VStr "none"
       ∧ get tgt "role" = VStr "menuitem"
       ∧ get li "aria-selected" = VUndef.

(** The target carries the popover-dismiss class exactly when the item
    dismisses, is enabled and has no submenu. *)
Definition dismiss_class_iff (Classes : ClassesT) (this : Instance) : Prop :=
  has_class Classes.(POPOVER_DISMISS) (targetClassName Classes this)
  ↔ truthy (get (props this) "shouldDismissPopover") = true
    ∧ truthy (get (props this) "disabled") = false
    ∧ hasSubmenu this = false.

(** A well-formed class table: popover-dismiss is one class name, the
    keys of the class map of [render] are distinct, and the other
    class names of the target do not spell it. *)
Record ClassesWf (Classes : ClassesT) : Prop := {
  wf_dismiss_single :
    class_list Classes.(POPOVER_DISMISS) = [Classes.(POPOVER_DISMISS)];
  wf_keys_distinct :
    NoDup [ Classes.(ACTIVE); Classes.(DISABLED); Classes.(POPOVER_DISMISS);
            Classes.(SELECTED) ];
  wf_dismiss_fresh :
    Forall (λ c, ¬ has_class Classes.(POPOVER_DISMISS) c)
           [ Classes.(MENU_ITEM); Classes.(ACTIVE); Classes.(DISABLED);
             Classes.(SELECTED) ];
}.

(** The keys of the class map of [render], in its order. *)
Definition class_map_keys (Classes : ClassesT) : list string :=
  [ Classes.(ACTIVE); Classes.(DISABLED); Classes.(POPOVER_DISMISS); Classes.(SELECTED) ].

(** The classes that the caller adds to the target: the class of the
    intent and the [className] prop. *)
Definition callerClasses (Classes : ClassesT) (this : Instance) : string :=
  classNames [ CVal (Classes.(intentClass) (get (props this) "intent"));
               CVal (get (props this) "className") ].

(** A class table whose names can be told apart: [MENU_ITEM] and the
    keys of the class map are distinct, each key is one class name,
    and none of these names spells another key. *)
Record StateClassesWf (Classes : ClassesT) : Prop := {
  wf_names_distinct : NoDup (Classes.(MENU_ITEM) :: class_map_keys Classes);
  wf_keys_single : Forall (λ k, class_list k = [k]) (class_map_keys Classes);
  wf_keys_fresh :
    Forall (λ k, Forall (λ c, c ≠ k → ¬ has_class k c)
                        (Classes.(MENU_ITEM) :: class_map_keys Classes))
           (class_map_keys Classes);
}.

(** The [<span>] that [render] wraps an icon in. *)
Definition iconElement (Classes : ClassesT) (icon : JsVal) : JsVal :=
  createElement (VStr "span")
    {[ "className" := VStr Classes.(MENU_ITEM_ICON) ]}
    [ createElement (VComp "Icon")
        (list_to_map [ ("icon", icon);
                       ("aria-hidden", VBool true);
                       ("tabIndex", VNum (-1)) ])
        [] ].

(** The props that the submenu [Popover] has unless [popoverProps]
    says otherwise. *)
Definition submenuPopoverDefaults (this : Instance) : Obj :=
  list_to_map
    [ ("autoFocus", VBool false);
      ("captureDismiss", VBool false);
      ("disabled", get (props this) "disabled");
      ("enforceFocus", VBool false);
      ("hoverCloseDelay", VNum 0);
      ("interactionKind", VStr "hover");
      ("modifiers", SUBMENU_POPOVER_MODIFIERS);
      ("placement", VStr "right-start");
      ("usePortal", VBool false) ].

(** The Blueprint 5 class table, as an instance for examples. *)
Definition bp5_intentClass (intent : JsVal) : JsVal :=
  match intent with
  | VUndef | VNull => VUndef
  | VStr "none" => VUndef
  | VStr s => VStr ("bp5-intent-" +:+ s)
  | _ => VUndef
  end.

Definition bp5 : ClassesT :=
  {| ACTIVE := "bp5-active";
     DISABLED := "bp5-disabled";
     FILL := "bp5-fill";
     MENU_ITEM := "bp5-menu-item";
     MENU_ITEM_ICON := "bp5-menu-item-icon";
     MENU_ITEM_LABEL := "bp5-menu-item-label";
     MENU_SUBMENU := "bp5-submenu";
     MENU_SUBMENU_ICON := "bp5-submenu-icon";
     POPOVER_DISMISS := "bp5-popover-dismiss";
     SELECTED := "bp5-selected";
     intentClass := bp5_intentClass |}.

(** *** Rendering as a call that may throw *)

(** How a call ends: it returns a value, or it throws an error. *)
Inductive Completion (A : Type) : Type :=
| Normal (result : A)
| Throw (error : string).

#[global] Arguments Normal {A} result.
#[global] Arguments Throw {A} error.

#[global] Instance Completion_ret : MRet Completion := @Normal.

#[global] Instance Completion_bind : MBind Completion :=
  λ A B k c, match c with Normal a => k a | Throw e => Throw e end.

(** The types of the props that [render] reads by name.  [Intent],
    [IconName] and [MaybeElement] are declared in [common], outside
    the files embedded here. *)
Definition INTENTS : list string :=
  [ "none"; "primary"; "success"; "warning"; "danger" ].

Definition is_boolean (v : JsVal) : bool :=
  match v with VBool _ => true | _ => false end.

Definition is_text (v : JsVal) : bool :=
  match v with VStr _ => true | _ => false end.

Definition is_object (v : JsVal) : bool :=
  match v with VObj _ => true | _ => false end.

Definition is_intent (v : JsVal) : bool :=
  match v with VStr s => bool_decide (s ∈ INTENTS) | _ => false end.

Definition is_roleStructure (v : JsVal) : bool :=
  is_string "menuitem" v || is_string "listoption" v.

(** [IconName | MaybeElement]: a name, an element, [false] or [null]. *)
Definition is_icon (v : JsVal) : bool :=
  match v with
  | VStr _ | VElement _ _ | VNull | VBool false => true
  | _ => false
  end.

(** [React.ReactNode]: text, a number, a boolean, [null], [undefined],
    an element, or an array of nodes. *)
Fixpoint is_node (v : JsVal) : bool :=
  match v with
  | VUndef | VNull | VBool _ | VNum _ | VStr _ | VElement _ _ => true
  | VArr items => forallb is_node items
  | VFun _ | VComp _ | VObj _ => false
  end.

(** A prop declared with [?]. *)
Definition optional (type : JsVal → bool) (v : JsVal) : bool :=
  is_undefined v || type v.

(** [MenuItemProps], for the props that [render] and its two helpers
    read by name: the seventeen of the destructuring pattern, [icon]
    and [label].  The other props are HTML attributes, which [render]
    hands to the target without reading them. *)
Definition MenuItemProps : list (string * (JsVal → bool)) :=
  [ ("text", is_node);
    ("active", optional is_boolean);
    ("children", optional is_node);
    ("disabled", optional is_boolean);
    ("label", optional is_text);
    ("labelClassName", optional is_text);
    ("labelElement", optional is_node);
    ("roleStructure", optional is_roleStructure);
    ("multiline", optional is_boolean);
    ("popoverProps", optional is_object);
    ("selected", optional is_boolean);
    ("shouldDismissPopover", optional is_boolean);
    ("submenuProps", optional is_object);
    ("tagName", optional is_text);
    ("textClassName", optional is_text);
    ("htmlTitle", optional is_text);
    ("className", optional is_text);
    ("icon", optional is_icon);
    ("intent", optional is_intent) ].

Definition wellTyped (p : Obj) : bool :=
  forallb (λ decl, decl.2 (get p decl.1)) MenuItemProps.

Section Call.
Variable Classes : ClassesT.

(** The call [Classes.intentClass(intent)], which runs code of
    [common/classes] and may throw. *)
Variable intentClass_call : JsVal → Completion JsVal.

(** The class table in which [intentClass] has returned [result]. *)
Definition withIntentClass (result : JsVal) : ClassesT :=
  {| ACTIVE := Classes.(ACTIVE);
     DISABLED := Classes.(DISABLED);
     FILL := Classes.(FILL);
     MENU_ITEM := Classes.(MENU_ITEM);
     MENU_ITEM_ICON := Classes.(MENU_ITEM_ICON);
     MENU_ITEM_LABEL := Classes.(MENU_ITEM_LABEL);
     MENU_SUBMENU := Classes.(MENU_SUBMENU);
     MENU_SUBMENU_ICON := Classes.(MENU_SUBMENU_ICON);
     POPOVER_DISMISS := Classes.(POPOVER_DISMISS);
     SELECTED := Classes.(SELECTED);
     intentClass := λ _, result |}.

(** The call [this.render()].  The body runs foreign code that may
    throw at one place, the call of [Classes.intentClass] on the
    [intent] prop; what that call returns is the [intentClass] of the
    rest of the body.  The other steps are operators that are defined
    on every value (the destructuring of [this.props], [===], [??],
    [!= null], [&&], [!], [?.], object literals and their spreads),
    and calls of [Boolean], [classNames], [React.createElement],
    [maybeRenderLabel] and [maybeRenderPopover], which return for
    every argument. *)
Definition render_call (this : Instance) : Completion JsVal :=
  intentClass ← intentClass_call (get (props this) "intent");
  mret (render (withIntentClass intentClass) this).

End Call.


(** [s.toLowerCase()], on the letters of ASCII. *)
Definition toLowerCase (s : string) : string :=
  String.string_of_list_ascii
    (map (λ a, let n := Ascii.nat_of_ascii a in
               if (65 <=? n)%nat && (n <=? 90)%nat
               then Ascii.ascii_of_nat (n + 32) else a)
         (String.list_ascii_of_string s)).

(** The call of the Blueprint 5 [intentClass], as an instance for
    examples: no class for a missing intent and for [none], the class
    named after a string, and a [TypeError] for the other values,
    which have no [toLowerCase]. *)
Definition bp5_intentClass_call (intent : JsVal) : Completion JsVal :=
  match intent with
  | VUndef | VNull => Normal VUndef
  | VStr "none" => Normal VUndef
  | VStr s => Normal (VStr ("bp5-intent-" +:+ toLowerCase s))
  | _ => Throw "TypeError: intent.toLowerCase is not a function"
  end.

End MenuItem.

(** ** Dismissal of a popover by a click inside it *)

Module Popover.
Import Js.

(** Modelled from the spec: the click handling of [Popover], whose
    source [popover.tsx] is not among the files embedded here.  A
    popover is "shown/hidden based on interaction state"; a click on
    an element inside it that carries the popover-dismiss class closes
    it, a click on any other element leaves it as it is (the two
    item-click tests of the [<Select>] suite). *)
Definition handlePopoverClick (POPOVER_DISMISS : string) (clickedClassName : string)
    (isOpen : bool) : bool :=
  if decide (has_class POPOVER_DISMISS clickedClassName) then false else isOpen.

End Popover.

(** ** The Select component *)

Module Select.
Import Js.

(** Modelled from the spec: the props of the [Select] component, whose
    source is not among the files embedded here (only its test suite
    is): the [filterable] and [disabled] flags, the items, and the
    [onOpening] callback that the caller passes through [popoverProps]. *)
Record SelectProps := {
  filterable : option bool;
  disabled : option bool;
  items : list string;
  (** [popoverProps.onOpening], a callback known by identity *)
  onOpening : option nat;
}.

(** Modelled from the spec: the view state of [Select], "open/closed
    flags". *)
Record SelectState := {
  isOpen : bool;
}.

(** The rendered component tree, as the test suite searches it. *)
Inductive Rendered :=
| Node (component : string) (attrs : Obj) (children : list Rendered).

(** Modelled from the spec: the item renderer of the test suite, one
    [MenuItem] row per item. *)
Definition renderItem (item : string) : Rendered :=
  Node "MenuItem" {[ "text" := VStr item ]} [].

(** Modelled from the spec: whether the content of the popover is
    rendered.  A popover is "shown/hidden based on interaction state",
    and a disabled [Select] renders no item, open or not (the tests
    "disabled=true doesn't call itemRenderer" and "disabled=false calls
    itemRenderer", both run with an open popover). *)
Definition contentShown (p : SelectProps) (s : SelectState) : bool :=
  isOpen s && negb (default false (disabled p)).

(** Modelled from the spec: the rendering of [Select].  "A composite
    widget combining a filterable text input with a list of selectable
    items shown in a popover": one [Popover] around the target button,
    with the open flag of the state and the [disabled] flag of the
    props; while its content is shown, the popover holds the
    [InputGroup], unless [filterable] is [false], and the menu of the
    items. *)
Definition render (p : SelectProps) (s : SelectState) : Rendered :=
  Node "Popover"
    (list_to_map
       [ ("isOpen", VBool (isOpen s));
         ("disabled", match disabled p with Some flag => VBool flag | None => VUndef end) ])
    (Node "button" {[ "data-testid" := VStr "target-button" ]} []
     :: if contentShown p s
        then [ Node "div" ∅
                 ((match filterable p with
                   | Some false => []
                   | _ => [Node "InputGroup" ∅ []]
                   end)
                  ++ [Node "Menu" ∅ (map renderItem (items p))]) ]
        else []).

(** [wrapper.find(Component)]: the nodes of a component, in the whole tree. *)
Fixpoint find (c : string) (t : Rendered) : list Rendered :=
  match t with
  | Node c' a ts =>
      (if String.eqb c' c then [t] else []) ++ concat (map (find c) ts)
  end.

(** Modelled from the spec: "a popover opens on click", "a callback
    fires once".  A click on the target of a closed popover opens it
    and runs the caller's [onOpening]; the result carries the callbacks
    run, in order.  A click on the target of an open popover hides it.
    The spec and the tests say nothing of a click on a disabled
    [Select]: the [disabled] flag is not read here. *)
Definition handleTargetClick (p : SelectProps) (s : SelectState) : SelectState * list nat :=
  if isOpen s
  then ({| isOpen := false |}, [])
  else ({| isOpen := true |}, option_list (onOpening p)).

(** [wrapper.find(Popover).prop("isOpen")]. *)
Definition popoverIsOpen (t : Rendered) : JsVal :=
  match find "Popover" t with
  | Node _ a _ :: _ => get a "isOpen"
  | [] => VUndef
  end.

(** The props of a rendered node. *)
Definition nodeAttrs (t : Rendered) : Obj :=
  match t with Node _ attrs _ => attrs end.

(** The structure that would hold in every state: one [Popover] with
    the items, and the [InputGroup] by [filterable] alone. *)
Definition structure_in_every_state (p : SelectProps) (s : SelectState) : Prop :=
  ∃ popover,
    find "Popover" (render p s) = [popover]
    ∧ find "MenuItem" popover = map renderItem (items p)
    ∧ length (find "InputGroup" (render p s))
      = match filterable p with Some false => 0%nat | _ => 1%nat end.

End Select.

(** ** OmnibarExample ([omnibarExample.tsx]) *)

Module OmnibarExample.
Import Js React.

Record OmnibarExampleState := {
  allowCreate : bool;
  isOpen : bool;
  resetOnSelect : bool;
}.

(** A film of the examples data set. *)
Record Film := {
  title : string;
  year : Z;
  rank : Z;
}.

(** The component: its state and the toasts its [toaster] has shown. *)
Record Component := {
  state : OmnibarExampleState;
  toaster : list Obj;
}.

Definition initial : Component :=
  {| state := {| allowCreate := false; isOpen := false; resetOnSelect := true |};
     toaster := [] |}.

(** [this.setState(patch)], the patch given as the update of the
    fields it names.  Every handler calls it once, and React applies
    the patch before the next event is handled. *)
Definition setState (patch : OmnibarExampleState → OmnibarExampleState) (this : Component)
  : Component :=
  {| state := patch (state this); toaster := toaster this |}.

Definition set_allowCreate (v : bool) (s : OmnibarExampleState) : OmnibarExampleState :=
  {| allowCreate := v; isOpen := isOpen s; resetOnSelect := resetOnSelect s |}.
Definition set_isOpen (v : bool) (s : OmnibarExampleState) : OmnibarExampleState :=
  {| allowCreate := allowCreate s; isOpen := v; resetOnSelect := resetOnSelect s |}.
Definition set_resetOnSelect (v : bool) (s : OmnibarExampleState) : OmnibarExampleState :=
  {| allowCreate := allowCreate s; isOpen := isOpen s; resetOnSelect := v |}.

(** [this.toaster.show(toast)]. *)
Definition show (toast : Obj) (this : Component) : Component :=
  {| state := state this; toaster := toaster this ++ [toast] |}.

(** [handleBooleanChange(handler)] calls the handler with the [checked]
    flag of the event's target. *)
Definition handleAllowCreateChange (checked : bool) (this : Component) : Component :=
  setState (set_allowCreate checked) this.

Definition handleResetChange (checked : bool) (this : Component) : Component :=
  setState (set_resetOnSelect checked) this.

Definition handleClick (this : Component) : Component :=
  setState (set_isOpen true) this.

Definition handleItemSelect (film : Film) (this : Component) : Component :=
  show
    {[ "message" :=
         createElement (VStr "span") ∅
           [ VStr "You selected ";
             createElement (VStr "strong") ∅ [VStr (title film)];
             VStr "." ] ]}
    (setState (set_isOpen false) this).

Definition handleClose (this : Component) : Component :=
  setState (set_isOpen false) this.

Definition handleToggle (this : Component) : Component :=
  setState (set_isOpen (negb (isOpen (state this)))) this.

(** The user events the component reacts to. *)
Inductive Event :=
| ButtonClick
| OmnibarClose
| OmnibarItemSelect (film : Film)
| HotkeyToggle
| AllowCreateSwitch (checked : bool)
| ResetSwitch (checked : bool).

Definition handle (e : Event) (this : Component) : Component :=
  match e with
  | ButtonClick => handleClick this
  | OmnibarClose => handleClose this
  | OmnibarItemSelect film => handleItemSelect film this
  | HotkeyToggle => handleToggle this
  | AllowCreateSwitch checked => handleAllowCreateChange checked this
  | ResetSwitch checked => handleResetChange checked this
  end.

(** The component after a sequence of events. *)
Definition run (es : list Event) (this : Component) : Component :=
  fold_left (λ this e, handle e this) es this.

(** The toast that [handleItemSelect] shows for a film. *)
Definition selectionToast (film : Film) : Obj :=
  {[ "message" :=
       createElement (VStr "span") ∅
         [ VStr "You selected ";
           createElement (VStr "strong") ∅ [VStr (title film)];
           VStr "." ] ]}.

(** The films selected by a sequence of events, in order. *)
Definition selections (es : list Event) : list Film :=
  es ≫= λ e, match e with OmnibarItemSelect film => [film] | _ => [] end.

(** A [Switch] of the options panel: its label, whether it is checked,
    and the event that a change to a given [checked] flag raises. *)
Record Switch := {
  label : string;
  checked : bool;
  onChange : bool → Event;
}.

(** [renderOptions]: the two switches under the "Props" heading. *)
Definition renderOptions (this : Component) : list Switch :=
  [ {| label := "Reset on select";
       checked := resetOnSelect (state this);
       onChange := ResetSwitch |};
    {| label := "Allow creating new films";
       checked := allowCreate (state this);
       onChange := AllowCreateSwitch |} ].

(** The functions of [@blueprintjs/select/examples] and the callbacks
    of the component, values known by identity. *)
Definition createFilm : JsVal := VFun 1.
Definition renderCreateFilmMenuItem : JsVal := VFun 2.
Definition filterFilm : JsVal := VFun 3.
Definition renderFilm : JsVal := VFun 4.
Definition areFilmsEqual : JsVal := VFun 5.
Definition handleClose_ref : JsVal := VFun 6.
Definition handleItemSelect_ref : JsVal := VFun 7.

(** [{ ...this.state }]. *)
Definition stateProps (s : OmnibarExampleState) : Obj :=
  list_to_map
    [ ("allowCreate", VBool (allowCreate s));
      ("isOpen", VBool (isOpen s));
      ("resetOnSelect", VBool (resetOnSelect s)) ].

(** The props of the [<Omnibar>] element of [render]; [TOP_100_FILMS]
    is the data set of the examples. *)
Definition omnibarProps (TOP_100_FILMS : JsVal) (this : Component) : Obj :=
  let allowCreate := allowCreate (state this) in
  let maybeCreateNewItemFromQuery := if allowCreate then createFilm else VUndef in
  let maybeCreateNewItemRenderer := if allowCreate then renderCreateFilmMenuItem else VNull in
  assign (stateProps (state this))
    (list_to_map
       [ ("createNewItemFromQuery", maybeCreateNewItemFromQuery);
         ("createNewItemRenderer", maybeCreateNewItemRenderer);
         ("itemPredicate", filterFilm);
         ("itemRenderer", renderFilm);
         ("items", TOP_100_FILMS);
         ("itemsEqual", areFilmsEqual);
         ("noResults",
           createElement (VComp "MenuItem")
             (list_to_map [ ("disabled", VBool true); ("text", VStr "No results.") ]) []);
         ("onClose", handleClose_ref);
         ("onItemSelect", handleItemSelect_ref) ]).

End OmnibarExample.

(** ** NumericInputBasicExample ([numericInputBasicExample.tsx]) *)

Module NumericInputBasicExample.
Import Js.

(** A JavaScript number of the example: a decimal [digits / 10^scale]
    or an infinity ([MIN_VALUES] and [MAX_VALUES] hold both). *)
Inductive Num :=
| Decimal (digits : Z) (scale : nat)
| PosInfinity
| NegInfinity
| NaN.

Inductive Intent := NONE | PRIMARY | SUCCESS | WARNING | DANGER.

Inductive ButtonPosition := BP_none | BP_left | BP_right.

(** The state of the example, of type [NumericInputProps]. *)
Record NumericInputProps := mkState {
  allowNumericCharactersOnly : bool;
  buttonPosition : ButtonPosition;
  disabled : bool;
  fill : bool;
  intent : Intent;
  large : bool;
  leftElement : option JsVal;
  leftIcon : option string;
  locale : option string;
  majorStepSize : Num;
  max : Num;
  min : Num;
  minorStepSize : Num;
  selectAllOnFocus : bool;
  selectAllOnIncrement : bool;
  small : bool;
  stepSize : Num;
  value : string;
}.

Definition initial : NumericInputProps :=
  {| allowNumericCharactersOnly := true;
     buttonPosition := BP_right;
     disabled := false;
     fill := false;
     intent := NONE;
     large := false;
     leftElement := None;
     leftIcon := None;
     locale := None;
     majorStepSize := Decimal 10 0;
     max := Decimal 100 0;
     min := Decimal 0 0;
     minorStepSize := Decimal 1 1;
     selectAllOnFocus := false;
     selectAllOnIncrement := false;
     small := false;
     stepSize := Decimal 1 0;
     value := "" |}.

(** [this.setState({ field })], one definition per field that a handler sets. *)
Definition set_allowNumericCharactersOnly (v : bool) (s : NumericInputProps) :=
  let 'mkState _ bp di fi it la le li lo ma mx mn mi sf si sm st va := s in
  mkState v bp di fi it la le li lo ma mx mn mi sf si sm st va.
Definition set_buttonPosition (v : ButtonPosition) (s : NumericInputProps) :=
  let 'mkState an _ di fi it la le li lo ma mx mn mi sf si sm st va := s in
  mkState an v di fi it la le li lo ma mx mn mi sf si sm st va.
Definition set_disabled (v : bool) (s : NumericInputProps) :=
  let 'mkState an bp _ fi it la le li lo ma mx mn mi sf si sm st va := s in
  mkState an bp v fi it la le li lo ma mx mn mi sf si sm st va.
Definition set_fill (v : bool) (s : NumericInputProps) :=
  let 'mkState an bp di _ it la le li lo ma mx mn mi sf si sm st va := s in
  mkState an bp di v it la le li lo ma mx mn mi sf si sm st va.
Definition set_intent (v : Intent) (s : NumericInputProps) :=
  let 'mkState an bp di fi _ la le li lo ma mx mn mi sf si sm st va := s in
  mkState an bp di fi v la le li lo ma mx mn mi sf si sm st va.
Definition set_large (v : bool) (s : NumericInputProps) :=
  let 'mkState an bp di fi it _ le li lo ma mx mn mi sf si sm st va := s in
  mkState an bp di fi it v le li lo ma mx mn mi sf si sm st va.
Definition set_leftElement (v : option JsVal) (s : NumericInputProps) :=
  let 'mkState an bp di fi it la _ li lo ma mx mn mi sf si sm st va := s in
  mkState an bp di fi it la v li lo ma mx mn mi sf si sm st va.
Definition set_leftIcon (v : option string) (s : NumericInputProps) :=
  let 'mkState an bp di fi it la le _ lo ma mx mn mi sf si sm st va := s in
  mkState an bp di fi it la le v lo ma mx mn mi sf si sm st va.
Definition set_locale (v : option string) (s : NumericInputProps) :=
  let 'mkState an bp di fi it la le li _ ma mx mn mi sf si sm st va := s in
  mkState an bp di fi it la le li v ma mx mn mi sf si sm st va.
Definition set_max (v : Num) (s : NumericInputProps) :=
  let 'mkState an bp di fi it la le li lo ma _ mn mi sf si sm st va := s in
  mkState an bp di fi it la le li lo ma v mn mi sf si sm st va.
Definition set_min (v : Num) (s : NumericInputProps) :=
  let 'mkState an bp di fi it la le li lo ma mx _ mi sf si sm st va := s in
  mkState an bp di fi it la le li lo ma mx v mi sf si sm st va.
Definition set_selectAllOnFocus (v : bool) (s : NumericInputProps) :=
  let 'mkState an bp di fi it la le li lo ma mx mn mi _ si sm st va := s in
  mkState an bp di fi it la le li lo ma mx mn mi v si sm st va.
Definition set_selectAllOnIncrement (v : bool) (s : NumericInputProps) :=
  let 'mkState an bp di fi it la le li lo ma mx mn mi sf _ sm st va := s in
  mkState an bp di fi it la le li lo ma mx mn mi sf v sm st va.
Definition set_small (v : bool) (s : NumericInputProps) :=
  let 'mkState an bp di fi it la le li lo ma mx mn mi sf si _ st va := s in
  mkState an bp di fi it la le li lo ma mx mn mi sf si v st va.
Definition set_value (v : string) (s : NumericInputProps) :=
  let 'mkState an bp di fi it la le li lo ma mx mn mi sf si sm st _ := s in
  mkState an bp di fi it la le li lo ma mx mn mi sf si sm st v.

(** The handlers.  [handleBooleanChange], [handleNumberChange],
    [handleStringChange] and [handleValueChange] of the docs theme call
    the wrapped handler with the checked flag, the number or the string
    of the event's target. *)
Definition handleMaxChange (max : Num) (s : NumericInputProps) := set_max max s.

Definition handleMinChange (min : Num) (s : NumericInputProps) := set_min min s.

Definition handleIntentChange (intent : Intent) (s : NumericInputProps) := set_intent intent s.

Definition handleButtonPositionChange (buttonPosition : ButtonPosition)
    (s : NumericInputProps) :=
  set_buttonPosition buttonPosition s.

Definition handleLocaleChange (locale : string) (s : NumericInputProps) :=
  set_locale (if String.eqb locale "default" then None else Some locale) s.

Definition toggleDisabled (disabled : bool) (s : NumericInputProps) := set_disabled disabled s.

Definition toggleLeftIcon (leftIcon : bool) (s : NumericInputProps) :=
  set_leftIcon (if leftIcon then Some "dollar" else None) s.

(** [this.setState({ small, ...(small && { large: false }) })]: the
    spread of [false] adds nothing. *)
Definition handleSmallChange (small : bool) (s : NumericInputProps) :=
  if small then set_large false (set_small small s) else set_small small s.

(** [this.setState({ large, ...(large && { small: false }) })]. *)
Definition handleLargeChange (large : bool) (s : NumericInputProps) :=
  if large then set_small false (set_large large s) else set_large large s.

(** The filter button with its menu of comparison operators. *)
Definition leftElementPopover : JsVal :=
  let item (icon text : string) : JsVal :=
    React.createElement (VComp "MenuItem")
      (list_to_map [ ("icon", VStr icon); ("text", VStr text) ]) [] in
  React.createElement (VComp "Popover")
    (list_to_map
       [ ("position", VStr "bottom");
         ("content",
           React.createElement (VComp "Menu") ∅
             [ item "equals" "Equals";
               item "less-than" "Less than";
               item "greater-than" "Greater than" ]) ])
    [ React.createElement (VComp "Button")
        (list_to_map [ ("minimal", VBool true); ("icon", VStr "filter") ]) [] ].

Definition toggleLeftElement (leftElement : bool) (s : NumericInputProps) :=
  set_leftElement (if leftElement then Some leftElementPopover else None) s.

Definition toggleFullWidth (fill : bool) (s : NumericInputProps) := set_fill fill s.

Definition toggleNumericCharsOnly (allowNumericCharactersOnly : bool)
    (s : NumericInputProps) :=
  set_allowNumericCharactersOnly allowNumericCharactersOnly s.

Definition toggleSelectAllOnFocus (selectAllOnFocus : bool) (s : NumericInputProps) :=
  set_selectAllOnFocus selectAllOnFocus s.

Definition toggleSelectAllOnIncrement (selectAllOnIncrement : bool)
    (s : NumericInputProps) :=
  set_selectAllOnIncrement selectAllOnIncrement s.

Definition handleValueChange (_v : Num) (value : string) (s : NumericInputProps) :=
  set_value value s.

(** Every state update of the example is one of these events. *)
Inductive Event :=
| MaxChange (max : Num)
| MinChange (min : Num)
| IntentChange (intent : Intent)
| ButtonPositionChange (buttonPosition : ButtonPosition)
| LocaleChange (locale : string)
| DisabledSwitch (checked : bool)
| LeftIconSwitch (checked : bool)
| SmallSwitch (checked : bool)
| LargeSwitch (checked : bool)
| LeftElementSwitch (checked : bool)
| FillSwitch (checked : bool)
| NumericCharsOnlySwitch (checked : bool)
| SelectAllOnFocusSwitch (checked : bool)
| SelectAllOnIncrementSwitch (checked : bool)
| ValueChange (v : Num) (value : string).

Definition handle (e : Event) (s : NumericInputProps) : NumericInputProps :=
  match e with
  | MaxChange max => handleMaxChange max s
  | MinChange min => handleMinChange min s
  | IntentChange intent => handleIntentChange intent s
  | ButtonPositionChange buttonPosition => handleButtonPositionChange buttonPosition s
  | LocaleChange locale => handleLocaleChange locale s
  | DisabledSwitch checked => toggleDisabled checked s
  | LeftIconSwitch checked => toggleLeftIcon checked s
  | SmallSwitch checked => handleSmallChange checked s
  | LargeSwitch checked => handleLargeChange checked s
  | LeftElementSwitch checked => toggleLeftElement checked s
  | FillSwitch checked => toggleFullWidth checked s
  | NumericCharsOnlySwitch checked => toggleNumericCharsOnly checked s
  | SelectAllOnFocusSwitch checked => toggleSelectAllOnFocus checked s
  | SelectAllOnIncrementSwitch checked => toggleSelectAllOnIncrement checked s
  | ValueChange v value => handleValueChange v value s
  end.

(** The states the example can be in: the initial one, and every state
    an event leads to. *)
Inductive reachable : NumericInputProps → Prop :=
| reachable_initial : reachable initial
| reachable_handle e s : reachable s → reachable (handle e s).

(** The [small] and [large] flags are not both set. *)
Definition exclusive (s : NumericInputProps) : Prop :=
  ¬ (small s = true ∧ large s = true).

(** The states after a given sequence of events. *)
Definition run (es : list Event) (s : NumericInputProps) : NumericInputProps :=
  fold_left (λ s e, handle e s) es s.

(** [renderSwitch(label, checked, onChange)]: a [Switch] with its
    label, whether it is checked, and the event that a change to a
    given [checked] flag raises. *)
Record Switch := {
  label : string;
  checked : bool;
  onChange : bool → Event;
}.

Definition renderSwitch (label : string) (checked : bool) (onChange : bool → Event)
  : Switch :=
  {| label := label; checked := checked; onChange := onChange |}.

(** [o != null]. *)
Definition not_null {A : Type} (o : option A) : bool :=
  match o with Some _ => true | None => false end.

(** The switches of [renderOptions], above the divider. *)
Definition renderOptionsSwitches (s : NumericInputProps) : list Switch :=
  [ renderSwitch "Disabled" (disabled s) DisabledSwitch;
    renderSwitch "Fill" (fill s) FillSwitch;
    renderSwitch "Large" (large s) LargeSwitch;
    renderSwitch "Small" (small s) SmallSwitch;
    renderSwitch "Left icon" (not_null (leftIcon s)) LeftIconSwitch;
    renderSwitch "Left element" (not_null (leftElement s)) LeftElementSwitch;
    renderSwitch "Numeric characters only" (allowNumericCharactersOnly s)
      NumericCharsOnlySwitch;
    renderSwitch "Select all on focus" (selectAllOnFocus s) SelectAllOnFocusSwitch;
    renderSwitch "Select all on increment" (selectAllOnIncrement s)
      SelectAllOnIncrementSwitch ].

End NumericInputBasicExample.

(** ** The helpers of the [<Select>] test suite *)

Module SelectSuite.
Import Js React.

(** [Number.MAX_SAFE_INTEGER]. *)
Definition MAX_SAFE_INTEGER : Z := 2 ^ 53 - 1.

(** A whole number that a JavaScript number holds exactly. *)
Record SafeInteger := {
  value : Z;
  value_safe : bool_decide (Z.abs value ≤ MAX_SAFE_INTEGER);
}.

(** [n.toString()] of a safe integer: its decimal numeral.  (The
    exponent notation of [toString] starts at [10^21], above every
    safe integer.) *)
Definition toString (n : SafeInteger) : string := pretty (value n).

(** A film of the examples data set; its year is a whole number. *)
Record Film := {
  title : string;
  year : SafeInteger;
  rank : Z;
}.

(** [filterByYear]. *)
Definition filterByYear (query : string) (film : Film) : bool :=
  String.eqb query EmptyString || String.eqb (toString (year film)) query.

(** [defaultProps] of the suite; [TOP_100_FILMS] is the data set. *)
Definition defaultProps (TOP_100_FILMS : JsVal) : Obj :=
  list_to_map
    [ ("items", TOP_100_FILMS);
      ("popoverProps",
        VObj (list_to_map [ ("isOpen", VBool true); ("usePortal", VBool false) ]));
      ("query", VStr EmptyString) ].

(** The spies of [handlers], values known by identity. *)
Definition handlers : Obj :=
  list_to_map
    [ ("itemPredicate", VFun 1);
      ("itemRenderer", VFun 2);
      ("onItemSelect", VFun 3) ].

(** The element that [select(props)] mounts:
    [<Select {...defaultProps} {...handlers} {...props}>] around the
    target button. *)
Definition select (TOP_100_FILMS : JsVal) (props : Obj) : JsVal :=
  createElement (VComp "Select")
    (assign (assign (assign ∅ (defaultProps TOP_100_FILMS)) handlers) props)
    [ createElement (VStr "button")
        {[ "data-testid" := VStr "target-button" ]} [VStr "Target"] ].

End SelectSuite.

(** * Properties *)

(** ** Facts about objects and class lists *)

Module JsFacts.
Import Js.

(** A decidable proposition on closed terms, by evaluation. *)
Ltac by_compute := apply (bool_decide_unpack _); vm_compute; exact I.

Lemma get_insert_eq (o : Obj) (k : string) (v : JsVal) : get (<[k := v]> o) k = v.
Proof. unfold get. by rewrite lookup_insert_eq. Qed.

Lemma get_insert_ne (o : Obj) (k k' : string) (v : JsVal) :
  k ≠ k' → get (<[k := v]> o) k' = get o k'.
Proof. intros Hne. unfold get. by rewrite lookup_insert_ne. Qed.

(** The rest of a destructuring pattern has the properties that the
    pattern does not name, with their values. *)
Lemma lookup_omit (ks : list string) (o : Obj) (k : string) :
  omit ks o !! k = if decide (k ∈ ks) then None else o !! k.
Proof.
  unfold omit. induction ks as [|k' ks IH]; simpl.
  - destruct (decide (k ∈ [])) as [H|H]; [by apply elem_of_nil in H|done].
  - destruct (decide (k' = k)) as [->|Hne].
    + rewrite lookup_delete_eq.
      destruct (decide (k ∈ k :: ks)) as [|H]; [done|]. set_solver.
    + rewrite lookup_delete_ne by done. rewrite IH.
      destruct (decide (k ∈ ks)) as [Hin|Hin], (decide (k ∈ k' :: ks)) as [Hin'|Hin'];
        try done; set_solver.
Qed.

Lemma lookup_assign (o ext : Obj) (k : string) :
  assign o ext !! k = match ext !! k with Some v => Some v | None => o !! k end.
Proof.
  unfold assign. destruct (ext !! k) as [v|] eqn:He.
  - by apply lookup_union_Some_l.
  - by rewrite lookup_union_r.
Qed.

Lemma truthy_and (a b : JsVal) : truthy (js_and a b) = truthy a && truthy b.
Proof. unfold js_and. by destruct (truthy a) eqn:Ha. Qed.

Lemma truthy_not (a : JsVal) : truthy (js_not a) = negb (truthy a).
Proof. done. Qed.

(** *** Class lists *)

Lemma split_on_whitespace_app_space (cur s1 s2 : string) :
  split_on_whitespace cur (s1 +:+ " " +:+ s2)
  = split_on_whitespace cur s1 ++ class_list s2.
Proof.
  revert cur. induction s1 as [|a s1 IH]; intros cur.
  - reflexivity.
  - change (String a s1 +:+ " " +:+ s2) with (String a (s1 +:+ " " +:+ s2)).
    simpl. destruct (is_ascii_whitespace a).
    + rewrite IH. by rewrite app_assoc.
    + apply IH.
Qed.

Lemma class_list_app_space (s1 s2 : string) :
  class_list (s1 +:+ " " +:+ s2) = class_list s1 ++ class_list s2.
Proof. apply split_on_whitespace_app_space. Qed.

Lemma class_list_appendClass (value newClass : string) :
  class_list (appendClass value newClass) = class_list value ++ class_list newClass.
Proof.
  unfold appendClass.
  destruct (String.eqb_spec newClass "") as [->|_].
  { by rewrite app_nil_r. }
  destruct (String.eqb_spec value "") as [->|_]; [done|].
  apply class_list_app_space.
Qed.

Lemma class_list_classNames_from (args : list ClassValue) (acc : string) :
  class_list
    (fold_left (λ classes arg,
                  if arg_truthy arg then appendClass classes (parseValue arg) else classes)
               args acc)
  = class_list acc ++ (args ≫= arg_classes).
Proof.
  revert acc. induction args as [|a args IH]; intros acc; simpl.
  - by rewrite app_nil_r.
  - rewrite IH. unfold arg_classes at 2. destruct (arg_truthy a).
    + by rewrite class_list_appendClass, app_assoc.
    + done.
Qed.

Lemma class_list_classNames (args : list ClassValue) :
  class_list (classNames args) = args ≫= arg_classes.
Proof. unfold classNames. by rewrite class_list_classNames_from. Qed.

Lemma class_list_dict_from (entries : list (string * JsVal)) (acc : string) :
  class_list
    (fold_left (λ classes kv, if truthy kv.2 then appendClass classes kv.1 else classes)
               entries acc)
  = class_list acc
    ++ (entries ≫= λ kv, if truthy kv.2 then class_list kv.1 else []).
Proof.
  revert acc. induction entries as [|[k v] es IH]; intros acc; simpl.
  - by rewrite app_nil_r.
  - rewrite IH. destruct (truthy v); simpl.
    + by rewrite class_list_appendClass, app_assoc.
    + done.
Qed.

Lemma has_class_classNames (c : string) (args : list ClassValue) :
  has_class c (classNames args) ↔ ∃ arg, arg ∈ args ∧ c ∈ arg_classes arg.
Proof.
  unfold has_class. rewrite class_list_classNames, list_elem_of_bind.
  naive_solver.
Qed.

End JsFacts.

(** ** MenuItem *)

Module MenuItemSpec.
Import Js React MenuItem JsFacts.

Section Rendering.
Variable Classes : ClassesT.

(** The props of the target element, property by property: the
    disabled overrides come first, then the HTML props, then the
    defaults [role] and [tabIndex]. *)
Lemma target_props_lookup (this : Instance) (k : string) :
  k ≠ "className" → k ≠ "children" →
  elem_props (target Classes this) !! k
  = match (if truthy (get (props this) "disabled") then DISABLED_PROPS else ∅) !! k with
    | Some v => Some v
    | None =>
        match htmlProps this !! k with
        | Some v => Some v
        | None =>
            (list_to_map [ ("role", targetRole this); ("tabIndex", VNum 0) ] : Obj) !! k
        end
    end.
Proof.
  intros Hc Hch. unfold target, createElement, elem_props.
  rewrite lookup_insert_ne by done. rewrite lookup_insert_ne by done.
  by rewrite !lookup_assign.
Qed.

Lemma target_className (this : Instance) :
  get (elem_props (target Classes this)) "className" = VStr (anchorClasses Classes this).
Proof.
  unfold target, createElement, elem_props.
  rewrite get_insert_ne by done. apply get_insert_eq.
Qed.

Lemma htmlProps_lookup (this : Instance) (k : string) :
  htmlProps this !! k = if decide (k ∈ DESTRUCTURED) then None else props this !! k.
Proof. apply lookup_omit. Qed.

Lemma render_props_lookup (this : Instance) (k : string) :
  k ≠ "children" →
  elem_props (render Classes this) !! k
  = (list_to_map [ ("className", VStr (liClasses Classes this));
                   ("role", liRole this);
                   ("aria-selected", ariaSelected this) ] : Obj) !! k.
Proof. intros Hk. unfold render, createElement, elem_props. by rewrite lookup_insert_ne. Qed.

Lemma render_children (this : Instance) :
  get (elem_props (render Classes this)) "children"
  = maybeRenderPopover Classes this (target Classes this) (get (props this) "children").
Proof. unfold render, createElement, elem_props. apply get_insert_eq. Qed.

(** C1 (amended).  The ARIA structure of a rendered item follows
    [roleStructure]: with ["listoption"] the [<li>] has role [option]
    and [aria-selected] equal to [Boolean(selected)], with any other
    value, or none, the [<li>] has role [none] and [aria-selected] is
    not set.  The role of the target element is the [role] of the HTML
    props when they have one; when they have none it is absent under
    ["listoption"] and [menuitem] otherwise.  The target is the child of
    the [<li>], directly or inside the submenu popover. *)
Theorem render_role_structure (this : Instance) :
  let li := elem_props (render Classes this) in
  let tgt := elem_props (target Classes this) in
  let listoption := is_string "listoption" (get (props this) "roleStructure") in
  get li "role" = (if listoption then VStr "option" else VStr "none")
  ∧ get li "aria-selected"
    = (if listoption then Boolean (get (props this) "selected") else VUndef)
  ∧ get tgt "role"
    = match props this !! "role" with
      | Some role => role
      | None => if listoption then VUndef else VStr "menuitem"
      end
  ∧ get li "children"
    = maybeRenderPopover Classes this (target Classes this) (get (props this) "children").
Proof.
  intros li tgt listoption.
  assert (Hrs : is_string "listoption" (roleStructure this) = listoption).
  { unfold roleStructure, get_default, listoption.
    by destruct (get (props this) "roleStructure"). }
  assert (Hroles :
    roles this
    = if listoption
      then (VStr "option", VUndef, icon this, Boolean (get (props this) "selected"))
      else (VStr "none", VStr "menuitem", icon this, VUndef)).
  { unfold icon, roles. rewrite Hrs. by destruct listoption. }
  split; [|split; [|split]].
  - unfold get, li. rewrite render_props_lookup by done.
    unfold liRole. rewrite Hroles. by destruct listoption.
  - unfold get, li. rewrite render_props_lookup by done.
    unfold ariaSelected. rewrite Hroles. by destruct listoption.
  - unfold get, tgt. rewrite target_props_lookup by done.
    assert (Hd : (if truthy (get (props this) "disabled") then DISABLED_PROPS else ∅)
                 !! "role" = None).
    { by destruct (truthy _). }
    rewrite Hd, htmlProps_lookup.
    rewrite decide_False by by_compute.
    destruct (props this !! "role") as [role|]; [done|].
    unfold targetRole. rewrite Hroles. by destruct listoption.
  - apply render_children.
Qed.

Lemma maybeRenderPopover_leaf (this : Instance) (tgt children : JsVal) :
  nullish children = true → maybeRenderPopover Classes this tgt children = tgt.
Proof. intros Hnull. unfold maybeRenderPopover. by rewrite Hnull. Qed.

Lemma maybeRenderPopover_submenu (this : Instance) (tgt children : JsVal) :
  nullish children = false →
  ∃ popoverProps,
    maybeRenderPopover Classes this tgt children = VElement (VComp "Popover") popoverProps
    ∧ get popoverProps "children" = tgt
    ∧ get popoverProps "content"
      = createElement (VComp "Menu") (spread ∅ (get (props this) "submenuProps")) [children].
Proof.
  intros Hnull. unfold maybeRenderPopover. rewrite Hnull.
  eexists. split; [reflexivity|]. split.
  - apply get_insert_eq.
  - do 3 rewrite get_insert_ne by done. apply get_insert_eq.
Qed.

Lemma target_caret (this : Instance) :
  nth_child 3 (target Classes this)
  = if hasSubmenu this
    then createElement (VComp "CaretRight")
           (list_to_map [ ("className", VStr Classes.(MENU_SUBMENU_ICON));
                          ("title", VStr "Open sub menu") ]) []
    else VUndef.
Proof.
  unfold nth_child, target, createElement, elem_props. by rewrite get_insert_eq.
Qed.

(** The target is never a popover around itself. *)
Lemma target_not_wrapped (this : Instance) (popoverProps : Obj) :
  target Classes this = VElement (VComp "Popover") popoverProps →
  get popoverProps "children" ≠ target Classes this.
Proof.
  intros Heq Hch.
  assert (Hprops : get (elem_props (target Classes this)) "children" = target Classes this).
  { rewrite Heq at 1. exact Hch. }
  unfold target at 1, createElement, elem_props in Hprops.
  rewrite get_insert_eq in Hprops. discriminate Hprops.
Qed.

(** C2.  The item is wrapped in a submenu popover exactly when the
    [children] prop is not null (or undefined).  Without children the
    target is the child of the [<li>] and has no caret; with children
    the child of the [<li>] is a [Popover] around the target whose
    content is a [Menu] holding those children, and the last child of
    the target is the submenu caret. *)
Theorem submenu_popover (this : Instance) :
  let children := get (props this) "children" in
  let li := render Classes this in
  let tgt := target Classes this in
  (wrapped_in_popover li tgt ↔ nullish children = false)
  ∧ if nullish children
    then get (elem_props li) "children" = tgt
         ∧ nth_child 3 tgt = VUndef
    else ∃ popoverProps content,
         get (elem_props li) "children" = VElement (VComp "Popover") popoverProps
         ∧ get popoverProps "children" = tgt
         ∧ get popoverProps "content" = content
         ∧ elem_type content = VComp "Menu"
         ∧ get (elem_props content) "children" = children
         ∧ elem_type (nth_child 3 tgt) = VComp "CaretRight"
         ∧ get (elem_props (nth_child 3 tgt)) "className"
           = VStr Classes.(MENU_SUBMENU_ICON).
Proof.
  intros children li tgt.
  assert (Hli : get (elem_props li) "children"
                = maybeRenderPopover Classes this tgt children) by apply render_children.
  assert (Hsub : hasSubmenu this = negb (nullish children)) by done.
  pose proof (target_caret this) as Hcaret. fold tgt in Hcaret. rewrite Hsub in Hcaret.
  destruct (nullish children) eqn:Hnull; simpl in Hcaret.
  - rewrite maybeRenderPopover_leaf in Hli by done.
    split; [|done]. split; [|done].
    intros (pp & Heq & Hch). exfalso.
    rewrite Hli in Heq. by apply (target_not_wrapped this pp).
  - destruct (maybeRenderPopover_submenu this tgt children Hnull)
      as (pp & Hpp & Hch & Hcontent).
    rewrite Hpp in Hli. split.
    + split; [done|]. intros _. by exists pp.
    + exists pp, (get pp "content"). rewrite Hcaret, Hcontent.
      repeat split; try done.
      unfold createElement, elem_props. apply get_insert_eq.
Qed.



(** C7.  Rendering is a function of the props alone: two instances
    with equal props, whatever their state and context, render the
    same element, with the same target and the same classes. *)
Theorem render_pure (this1 this2 : Instance) :
  props this1 = props this2 →
  render Classes this1 = render Classes this2
  ∧ target Classes this1 = target Classes this2
  ∧ class_list (targetClassName Classes this1) = class_list (targetClassName Classes this2)
  ∧ liClasses Classes this1 = liClasses Classes this2.
Proof.
  destruct this1 as [p1 s1 c1], this2 as [p2 s2 c2]. simpl. intros ->.
  repeat split.
Qed.

(** C8.  On a disabled item the target has [href], [onClick],
    [onMouseDown], [onMouseEnter] and [onMouseLeave] undefined and
    [tabIndex] equal to [-1], whatever the HTML props say; every other
    HTML prop reaches the target with its value. *)
Theorem disabled_target_props (this : Instance) :
  truthy (get (props this) "disabled") = true →
  let tgt := elem_props (target Classes this) in
  tgt !! "href" = Some VUndef
  ∧ tgt !! "onClick" = Some VUndef
  ∧ tgt !! "onMouseDown" = Some VUndef
  ∧ tgt !! "onMouseEnter" = Some VUndef
  ∧ tgt !! "onMouseLeave" = Some VUndef
  ∧ tgt !! "tabIndex" = Some (VNum (-1))
  ∧ ∀ (k : string) (v : JsVal),
      htmlProps this !! k = Some v →
      k ∉ [ "href"; "onClick"; "onMouseDown"; "onMouseEnter"; "onMouseLeave"; "tabIndex" ] →
      tgt !! k = Some v.
Proof.
  intros Hdis tgt. unfold tgt.
  rewrite !target_props_lookup by done. rewrite Hdis.
  repeat (split; [done|]).
  intros k v Hk Hnot.
  assert (Hkc : k ≠ "className" ∧ k ≠ "children").
  { rewrite htmlProps_lookup in Hk.
    destruct (decide (k ∈ DESTRUCTURED)) as [|Hout]; [done|].
    split; intros ->; apply Hout; by_compute. }
  destruct Hkc as [Hc Hch]. rewrite target_props_lookup by done.
  rewrite Hdis, Hk.
  assert (Hd : DISABLED_PROPS !! k = None).
  { by apply not_elem_of_list_to_map_1. }
  by rewrite Hd.
Qed.

Lemma targetClassName_anchorClasses (this : Instance) :
  targetClassName Classes this = anchorClasses Classes this.
Proof. unfold targetClassName. by rewrite target_className. Qed.

(** The popover-dismiss entry of the class map of [render]. *)
Lemma dismiss_entry_truthy (this : Instance) :
  truthy (js_and (js_and (get (props this) "shouldDismissPopover")
                         (js_not (get (props this) "disabled")))
                 (js_not (VBool (hasSubmenu this))))
  = truthy (get (props this) "shouldDismissPopover")
    && negb (truthy (get (props this) "disabled"))
    && negb (hasSubmenu this).
Proof. by rewrite !truthy_and, truthy_not. Qed.

(** With a well-formed class table, the class map of [render] gives
    popover-dismiss exactly when its entry is truthy. *)
Lemma dismiss_in_class_map (active disabled dismiss selected : JsVal) :
  ClassesWf Classes →
  Classes.(POPOVER_DISMISS)
    ∈ arg_classes (CDict [ (Classes.(ACTIVE), active);
                           (Classes.(DISABLED), disabled);
                           (Classes.(POPOVER_DISMISS), dismiss);
                           (Classes.(SELECTED), selected) ])
  ↔ truthy dismiss = true.
Proof.
  intros [Hsingle Hkeys Hfresh].
  apply NoDup_cons in Hkeys as [Ha Hkeys].
  apply NoDup_cons in Hkeys as [Hd Hkeys].
  apply NoDup_cons in Hkeys as [Hp _].
  apply Forall_cons in Hfresh as [_ Hfresh].
  apply Forall_cons in Hfresh as [Hfa Hfresh].
  apply Forall_cons in Hfresh as [Hfd Hfresh].
  apply Forall_cons in Hfresh as [Hfs _].
  unfold has_class in Hfa, Hfd, Hfs.
  assert (Hlit : obj_literal [ (Classes.(ACTIVE), active);
                           (Classes.(DISABLED), disabled);
                           (Classes.(POPOVER_DISMISS), dismiss);
                           (Classes.(SELECTED), selected) ]
                 = [ (Classes.(ACTIVE), active);
                           (Classes.(DISABLED), disabled);
                           (Classes.(POPOVER_DISMISS), dismiss);
                           (Classes.(SELECTED), selected) ]).
  { assert (Hda : (Classes.(DISABLED) =? Classes.(ACTIVE))%string = false)
      by (apply String.eqb_neq; set_solver).
    assert (Hpa : (Classes.(POPOVER_DISMISS) =? Classes.(ACTIVE))%string = false)
      by (apply String.eqb_neq; set_solver).
    assert (Hpd : (Classes.(POPOVER_DISMISS) =? Classes.(DISABLED))%string = false)
      by (apply String.eqb_neq; set_solver).
    assert (Hsa : (Classes.(SELECTED) =? Classes.(ACTIVE))%string = false)
      by (apply String.eqb_neq; set_solver).
    assert (Hsd : (Classes.(SELECTED) =? Classes.(DISABLED))%string = false)
      by (apply String.eqb_neq; set_solver).
    assert (Hsp : (Classes.(SELECTED) =? Classes.(POPOVER_DISMISS))%string = false)
      by (apply String.eqb_neq; set_solver).
    unfold obj_literal. simpl.
    by rewrite Hda; simpl; rewrite Hpa, Hpd; simpl; rewrite Hsa, Hsd, Hsp. }
  unfold arg_classes, arg_truthy, parseValue. rewrite Hlit, class_list_dict_from.
  simpl. rewrite Hsingle.
  destruct (truthy active), (truthy disabled), (truthy dismiss), (truthy selected);
    simpl; set_solver.
Qed.

(** C9 (amended).  When neither the intent class nor the [className]
    of the caller spells the popover-dismiss class, the target carries
    that class exactly when [shouldDismissPopover] is true, the item is
    not disabled and it has no children; [shouldDismissPopover] is true
    when the caller leaves it out.  Hence a click on a disabled item or
    on a submenu trigger leaves the enclosing popover as it is, and a
    click on an enabled leaf item that dismisses closes it. *)
Theorem popover_dismiss_class (this : Instance) :
  ClassesWf Classes →
  ¬ has_class Classes.(POPOVER_DISMISS)
      (classNames [ CVal (Classes.(intentClass) (get (props this) "intent"));
                    CVal (get (props this) "className") ]) →
  let shouldDismiss := truthy (get (props this) "shouldDismissPopover") in
  let disabled := truthy (get (props this) "disabled") in
  let cls := targetClassName Classes this in
  dismiss_class_iff Classes this
  ∧ (∀ config : Obj,
       get config "shouldDismissPopover" = VUndef →
       get (props (mount config)) "shouldDismissPopover" = VBool true)
  ∧ (∀ isOpen : bool,
       Popover.handlePopoverClick Classes.(POPOVER_DISMISS) cls isOpen
       = if shouldDismiss && negb disabled && negb (hasSubmenu this) then false else isOpen)
  ∧ (disabled = true ∨ hasSubmenu this = true →
     ∀ isOpen : bool,
       Popover.handlePopoverClick Classes.(POPOVER_DISMISS) cls isOpen = isOpen)
  ∧ (shouldDismiss = true ∧ disabled = false ∧ hasSubmenu this = false →
     ∀ isOpen : bool,
       Popover.handlePopoverClick Classes.(POPOVER_DISMISS) cls isOpen = false).
Proof.
  intros Hwf Huser shouldDismiss disabled cls.
  assert (Hiff : has_class Classes.(POPOVER_DISMISS) cls
                 ↔ shouldDismiss && negb disabled && negb (hasSubmenu this) = true).
  { unfold cls, shouldDismiss, disabled.
    rewrite targetClassName_anchorClasses. unfold anchorClasses.
    rewrite has_class_classNames, <- dismiss_entry_truthy.
    rewrite has_class_classNames in Huser.
    split.
    - intros (arg & Harg & Hc).
      apply elem_of_cons in Harg as [->|Harg].
      { exfalso. destruct Hwf as [_ _ Hfresh].
        apply Forall_cons in Hfresh as [Hm _]. apply Hm.
        unfold arg_classes in Hc. simpl in Hc.
        destruct (negb _); [exact Hc|]. by apply elem_of_nil in Hc. }
      apply elem_of_cons in Harg as [->|Harg].
      { exfalso. apply Huser. eexists. split; [|exact Hc]. set_solver. }
      apply elem_of_cons in Harg as [->|Harg].
      { by apply dismiss_in_class_map in Hc. }
      apply list_elem_of_singleton in Harg as ->.
      exfalso. apply Huser. eexists. split; [|exact Hc]. set_solver.
    - intros Ht. eexists. split; [|by apply dismiss_in_class_map].
      apply list_elem_of_further, list_elem_of_further, list_elem_of_here. }
  assert (Hclick : ∀ isOpen : bool,
       Popover.handlePopoverClick Classes.(POPOVER_DISMISS) cls isOpen
       = if shouldDismiss && negb disabled && negb (hasSubmenu this) then false else isOpen).
  { intros isOpen. unfold Popover.handlePopoverClick.
    destruct (decide (has_class Classes.(POPOVER_DISMISS) cls)) as [Hc|Hc].
    - apply Hiff in Hc. by rewrite Hc.
    - destruct (shouldDismiss && negb disabled && negb (hasSubmenu this)) eqn:Hb; [|done].
      exfalso. by apply Hc, Hiff. }
  split; [|split; [|split; [|split]]].
  - unfold dismiss_class_iff. fold shouldDismiss disabled cls. rewrite Hiff.
    destruct shouldDismiss, disabled, (hasSubmenu this); naive_solver.
  - intros config Hundef. unfold mount, resolveDefaultProps, get. simpl.
    rewrite lookup_merge. unfold get in Hundef.
    assert (Hdef : defaultProps !! "shouldDismissPopover" = Some (VBool true)) by done.
    rewrite Hdef. destruct (config !! "shouldDismissPopover"); simpl in *; by subst.
  - exact Hclick.
  - intros Hor isOpen. rewrite Hclick.
    destruct Hor as [Hd | Hs]; [rewrite Hd | rewrite Hs]; simpl;
      by rewrite ?andb_false_r.
  - intros (Hs & Hd & Hl) isOpen. by rewrite Hclick, Hs, Hd, Hl.
Qed.

End Rendering.

(** *** Completion of [render] *)

(** [render] throws exactly when the call of [intentClass] does, and
    with the same error. *)
Lemma render_call_throw (Classes : ClassesT) (intentClass_call : JsVal → Completion JsVal)
    (this : Instance) (error : string) :
  render_call Classes intentClass_call this = Throw error
  ↔ intentClass_call (get (props this) "intent") = Throw error.
Proof.
  unfold render_call, mbind, Completion_bind.
  by destruct (intentClass_call _).
Qed.



(** *** Instances *)

(** The Blueprint 5 class table is well formed. *)
Lemma bp5_wf : ClassesWf bp5.
Proof. split; by_compute. Defined.

(** The classes of a plain item, of an active item with an intent, and
    of an active item with classes of the caller. *)
Example anchorClasses_plain :
  anchorClasses bp5 (mount (list_to_map [ ("text", VStr "Open") ]))
  = "bp5-menu-item bp5-popover-dismiss".
Proof. vm_compute. reflexivity. Qed.

Example anchorClasses_intent :
  anchorClasses bp5
    (mount (list_to_map [ ("text", VStr "Open"); ("active", VBool true);
                          ("intent", VStr "primary") ]))
  = "bp5-menu-item bp5-intent-primary bp5-active bp5-popover-dismiss".
Proof. vm_compute. reflexivity. Qed.

Example anchorClasses_className :
  class_list
    (anchorClasses bp5
       (mount (list_to_map [ ("text", VStr "Open"); ("active", VBool true);
                             ("className", VStr "wide  tall") ])))
  = [ "bp5-menu-item"; "bp5-active"; "bp5-popover-dismiss"; "bp5-selected";
      "wide"; "tall" ].
Proof. vm_compute. reflexivity. Qed.

(** The roles of a selected option of a listbox, and of an item whose
    [roleStructure] is [null]: the default of the destructuring
    pattern is not taken. *)
Example roles_listoption :
  roles (mount (list_to_map [ ("text", VStr "Open");
                              ("roleStructure", VStr "listoption");
                              ("selected", VBool false) ]))
  = (VStr "option", VUndef, VStr "blank", VBool false).
Proof. vm_compute. reflexivity. Qed.

Example roles_null_structure :
  roles (mount (list_to_map [ ("text", VStr "Open"); ("roleStructure", VNull);
                              ("icon", VStr "cog") ]))
  = (VStr "none", VStr "menuitem", VStr "cog", VUndef).
Proof. vm_compute. reflexivity. Qed.

(** [defaultProps] fill in what reads [undefined], and leave [null]. *)
Example mount_defaults :
  let this := mount (list_to_map [ ("text", VUndef); ("disabled", VNull) ]) in
  get (props this) "text" = VStr ""
  ∧ get (props this) "disabled" = VNull
  ∧ get (props this) "shouldDismissPopover" = VBool true.
Proof. vm_compute. repeat split. Qed.

(** C1, as first stated, fails: an item of a listbox whose HTML props
    carry [role="button"] renders a target with that role, not one
    without role. *)
Lemma render_role_structure_counterexample :
  ¬ roles_by_structure bp5
      (mount (list_to_map [ ("text", VStr "Casablanca");
                            ("roleStructure", VStr "listoption");
                            ("role", VStr "button") ])).
Proof.
  unfold roles_by_structure. intros H. vm_compute in H.
  destruct H as (_ & Hnone & _). discriminate Hnone.
Qed.

(** An instance of C7: the same props with another state and context. *)
Lemma render_pure_witness :
  let p : Obj := list_to_map [ ("text", VStr "Open"); ("active", VBool true) ] in
  let this1 := {| props := p; state := VUndef; context := VUndef |} in
  let this2 := {| props := p; state := VObj {[ "hover" := VBool true ]}; context := VNull |} in
  props this1 = props this2
  ∧ render bp5 this1 = render bp5 this2
  ∧ target bp5 this1 = target bp5 this2
  ∧ class_list (targetClassName bp5 this1) = class_list (targetClassName bp5 this2)
  ∧ liClasses bp5 this1 = liClasses bp5 this2.
Proof.
  intros p this1 this2. split; [reflexivity|].
  apply (render_pure bp5 this1 this2). reflexivity.
Defined.


(** Outside the type of [intent] the call of [render] may throw: a
    number has no [toLowerCase]. *)
Example render_call_untyped_intent :
  let this := mount (list_to_map [ ("text", VStr "Delete"); ("intent", VNum 5) ]) in
  wellTyped (props this) = false
  ∧ render_call bp5 bp5_intentClass_call this
    = Throw "TypeError: intent.toLowerCase is not a function".
Proof. vm_compute. done. Qed.

(** Where the total [intentClass] of the class table is what the call
    returns, the element is the one of [render]. *)
Example render_call_typed_intent :
  let this := mount (list_to_map [ ("text", VStr "Delete"); ("intent", VStr "danger") ]) in
  render_call bp5 bp5_intentClass_call this = Normal (render bp5 this).
Proof. vm_compute. reflexivity. Qed.

(** An instance of C8: a disabled link loses its [href], its click
    handler and its [tabIndex], and keeps its [target] attribute. *)
Lemma disabled_target_props_witness :
  let this :=
    mount (list_to_map [ ("text", VStr "Delete"); ("disabled", VBool true);
                         ("href", VStr "#"); ("target", VStr "_blank");
                         ("tabIndex", VNum 3); ("onClick", VFun 1) ]) in
  let tgt := elem_props (target bp5 this) in
  truthy (get (props this) "disabled") = true
  ∧ htmlProps this !! "href" = Some (VStr "#")
  ∧ htmlProps this !! "target" = Some (VStr "_blank")
  ∧ tgt !! "href" = Some VUndef
  ∧ tgt !! "onClick" = Some VUndef
  ∧ tgt !! "onMouseDown" = Some VUndef
  ∧ tgt !! "onMouseEnter" = Some VUndef
  ∧ tgt !! "onMouseLeave" = Some VUndef
  ∧ tgt !! "tabIndex" = Some (VNum (-1))
  ∧ tgt !! "target" = Some (VStr "_blank").
Proof.
  intros this tgt.
  assert (Hdis : truthy (get (props this) "disabled") = true)
    by (vm_compute; reflexivity).
  split; [exact Hdis|].
  split; [vm_compute; reflexivity|]. split; [vm_compute; reflexivity|].
  destruct (disabled_target_props bp5 this Hdis)
    as (Hhref & Hclick & Hdown & Henter & Hleave & Htab & Hother).
  repeat (split; [assumption|]).
  apply Hother.
  - vm_compute; reflexivity.
  - by_compute.
Defined.

(** An instance of C8 with no other HTML prop: the overrides hold all
    the same. *)
Example disabled_target_only_overridden :
  let this :=
    mount (list_to_map [ ("text", VStr "Delete"); ("disabled", VBool true);
                         ("href", VStr "#"); ("onClick", VFun 1) ]) in
  let tgt := elem_props (target bp5 this) in
  tgt !! "href" = Some VUndef ∧ tgt !! "onClick" = Some VUndef
  ∧ tgt !! "tabIndex" = Some (VNum (-1)).
Proof. vm_compute. repeat split. Qed.

(** C9, as first stated, fails: a disabled item whose [className]
    spells the popover-dismiss class carries that class. *)
Lemma popover_dismiss_class_counterexample :
  ¬ dismiss_class_iff bp5
      (mount (list_to_map [ ("text", VStr "No results.");
                            ("disabled", VBool true);
                            ("className", VStr "bp5-popover-dismiss") ])).
Proof.
  unfold dismiss_class_iff. intros [Hdisabled _].
  assert (Hhas : has_class bp5.(POPOVER_DISMISS)
                   (targetClassName bp5
                      (mount (list_to_map [ ("text", VStr "No results.");
                                            ("disabled", VBool true);
                                            ("className", VStr "bp5-popover-dismiss") ]))))
    by by_compute.
  apply Hdisabled in Hhas as (_ & Hd & _). vm_compute in Hd. discriminate Hd.
Qed.

(** An instance of C9: a plain enabled item of the Blueprint 5 table. *)
Lemma popover_dismiss_class_witness :
  let this := mount (list_to_map [ ("text", VStr "Open"); ("className", VStr "wide") ]) in
  let cls := targetClassName bp5 this in
  ClassesWf bp5
  ∧ ¬ has_class bp5.(POPOVER_DISMISS)
        (classNames [ CVal (bp5.(intentClass) (get (props this) "intent"));
                      CVal (get (props this) "className") ])
  ∧ dismiss_class_iff bp5 this
  ∧ has_class bp5.(POPOVER_DISMISS) cls
  ∧ ∀ isOpen : bool,
      Popover.handlePopoverClick bp5.(POPOVER_DISMISS) cls isOpen = false.
Proof.
  intros this cls.
  assert (Huser : ¬ has_class bp5.(POPOVER_DISMISS)
        (classNames [ CVal (bp5.(intentClass) (get (props this) "intent"));
                      CVal (get (props this) "className") ])) by by_compute.
  split; [exact bp5_wf|]. split; [exact Huser|].
  destruct (popover_dismiss_class bp5 this bp5_wf Huser) as (Hiff & _ & _ & _ & Hclose).
  split; [exact Hiff|]. split.
  - apply Hiff. repeat split; vm_compute; reflexivity.
  - apply Hclose. repeat split; vm_compute; reflexivity.
Defined.

End MenuItemSpec.

(** ** Select *)

Module SelectSpec.
Import Js Select JsFacts.

#[local] Arguments String.eqb : simpl never.

(** The rows of the menu are found under [MenuItem] only. *)
Lemma find_items (c : string) (items : list string) :
  concat (map (find c) (map renderItem items))
  = if String.eqb "MenuItem" c then map renderItem items else [].
Proof.
  induction items as [|item items IH]; simpl.
  - by destruct (String.eqb "MenuItem" c).
  - rewrite IH. by destruct (String.eqb "MenuItem" c).
Qed.

(** C3 (amended).  Whatever the configuration and the state, the
    rendered [Select] holds exactly one [Popover].  While the popover
    is open and the [Select] is not disabled, the [Popover] holds the
    rendered items, and one [InputGroup] when [filterable] is true or
    unset and none when [filterable] is false.  While the popover is
    closed or the [Select] is disabled, neither the items nor an
    [InputGroup] are rendered. *)
Theorem select_render_structure (p : SelectProps) (s : SelectState) :
  ∃ popover,
    find "Popover" (render p s) = [popover]
    ∧ if isOpen s && negb (default false (disabled p))
      then find "MenuItem" popover = map renderItem (items p)
           ∧ length (find "InputGroup" (render p s))
             = match filterable p with Some false => 0%nat | _ => 1%nat end
      else find "MenuItem" popover = []
           ∧ find "InputGroup" (render p s) = [].
Proof.
  exists (render p s). unfold render, contentShown.
  destruct (isOpen s && negb (default false (disabled p))).
  - destruct (filterable p) as [[|]|]; simpl; rewrite !find_items;
      cbv [String.eqb Ascii.eqb Bool.eqb]; simpl; rewrite ?app_nil_r; done.
  - simpl. cbv [String.eqb Ascii.eqb Bool.eqb]. simpl. done.
Qed.

(** The [Popover] carries the [disabled] flag of the [Select] (the
    test "disabled=true disables Popover"). *)
Lemma select_popover_disabled (p : SelectProps) (s : SelectState) :
  ∃ popover,
    find "Popover" (render p s) = [popover]
    ∧ get (nodeAttrs popover) "disabled"
      = match disabled p with Some flag => VBool flag | None => VUndef end.
Proof.
  exists (render p s). unfold render. split.
  - destruct (contentShown p s); [destruct (filterable p) as [[|]|]|];
      simpl; rewrite ?find_items; cbv [String.eqb Ascii.eqb Bool.eqb];
      simpl; rewrite ?app_nil_r; done.
  - simpl. by destruct (disabled p).
Qed.

(** C3, as first stated, fails: a disabled [Select] renders no item,
    though its popover is open (the configuration of the test
    "disabled=true doesn't call itemRenderer"). *)
Lemma select_render_structure_counterexample :
  ¬ structure_in_every_state
      {| filterable := None; disabled := Some true; items := ["The Godfather"];
         onOpening := None |}
      {| isOpen := true |}.
Proof.
  intros (popover & Hpopover & Hitems & _).
  vm_compute in Hpopover. injection Hpopover as <-.
  vm_compute in Hitems. discriminate Hitems.
Qed.

(** A closed [Select] renders no [InputGroup], though [filterable] is
    unset. *)
Example closed_select_renders_no_input :
  find "InputGroup"
    (render {| filterable := None; disabled := None; items := ["The Godfather"];
               onOpening := None |}
            {| isOpen := false |})
  = [].
Proof. vm_compute. reflexivity. Qed.

(** C4.  A click on the target while the popover is closed sets the
    [isOpen] prop of the [Popover] to true and runs the [onOpening]
    callback of the caller exactly once. *)
Theorem select_click_opens (p : SelectProps) (s : SelectState) (callback : nat) :
  popoverIsOpen (render p s) = VBool false →
  onOpening p = Some callback →
  let (s', calls) := handleTargetClick p s in
  popoverIsOpen (render p s') = VBool true
  ∧ calls = [callback].
Proof.
  intros Hclosed Hcb. destruct s as [open].
  vm_compute in Hclosed. injection Hclosed as ->.
  unfold handleTargetClick. simpl. rewrite Hcb. done.
Qed.

(** An instance of C4: the scenario of the test suite. *)
Lemma select_click_opens_witness :
  let p := {| filterable := None; disabled := None;
              items := ["The Godfather"; "Casablanca"];
              onOpening := Some 7%nat |} in
  let s := {| isOpen := false |} in
  popoverIsOpen (render p s) = VBool false
  ∧ onOpening p = Some 7%nat
  ∧ popoverIsOpen (render p (handleTargetClick p s).1) = VBool true
  ∧ (handleTargetClick p s).2 = [7%nat].
Proof.
  intros p s. split; [reflexivity|]. split; [reflexivity|].
  apply (select_click_opens p s 7%nat); reflexivity.
Defined.

End SelectSpec.

(** ** OmnibarExample *)

Module OmnibarExampleSpec.
Import OmnibarExample.

(** C5.  Each event sets the [isOpen] flag at once and as a function
    of the event and of the flag before it: the button click opens,
    closing and item selection close, the hotkey negates the flag, and
    two presses of the hotkey restore the state. *)
Theorem omnibar_isOpen_events (this : Component) :
  isOpen (state (handle ButtonClick this)) = true
  ∧ isOpen (state (handle OmnibarClose this)) = false
  ∧ (∀ film, isOpen (state (handle (OmnibarItemSelect film) this)) = false)
  ∧ isOpen (state (handle HotkeyToggle this)) = negb (isOpen (state this))
  ∧ isOpen (state (handle HotkeyToggle (handle HotkeyToggle this))) = isOpen (state this)
  ∧ handle HotkeyToggle (handle HotkeyToggle this) = this
  ∧ (∀ e other,
       isOpen (state other) = isOpen (state this) →
       isOpen (state (handle e other)) = isOpen (state (handle e this))).
Proof.
  split; [done|]. split; [done|]. split; [done|]. split; [done|].
  split; [|split].
  - simpl. apply negb_involutive.
  - destruct this as [[allowCreate isOpen resetOnSelect] toaster].
    unfold handle, handleToggle, setState, set_isOpen. simpl.
    by rewrite negb_involutive.
  - intros e other Hsame. destruct e; simpl; by rewrite ?Hsame.
Qed.

End OmnibarExampleSpec.

(** ** NumericInputBasicExample *)

Module NumericInputBasicExampleSpec.
Import NumericInputBasicExample.

Lemma initial_exclusive : small initial = false ∧ large initial = false.
Proof. done. Qed.

(** Enabling one size forces the other off. *)
Lemma handleSmallChange_true (s : NumericInputProps) :
  small (handleSmallChange true s) = true ∧ large (handleSmallChange true s) = false.
Proof. by destruct s. Qed.

Lemma handleLargeChange_true (s : NumericInputProps) :
  large (handleLargeChange true s) = true ∧ small (handleLargeChange true s) = false.
Proof. by destruct s. Qed.

(** Every state update preserves the exclusion. *)
Lemma handle_exclusive (e : Event) (s : NumericInputProps) :
  exclusive s → exclusive (handle e s).
Proof.
  unfold exclusive. intros Hs. destruct s. simpl in Hs.
  destruct e as [| | | | | | |[|]|[|]| | | | | |]; simpl; try exact Hs;
    intros [? ?]; by try apply Hs.
Qed.

(** A sequence of events leads from a reachable state to a reachable one. *)
Lemma run_reachable (es : list Event) (s : NumericInputProps) :
  reachable s → reachable (run es s).
Proof.
  revert s. induction es as [|e es IH]; intros s Hs; simpl.
  - exact Hs.
  - apply IH. by apply reachable_handle.
Defined.

(** C10.  The example starts with [small] and [large] both false, and
    in every state it can reach the two are not both true: every
    update keeps this, enabling [small] forces [large] to false and
    enabling [large] forces [small] to false. *)
Theorem small_large_exclusive (s : NumericInputProps) :
  reachable s →
  (small initial = false ∧ large initial = false)
  ∧ exclusive s
  ∧ (∀ e, exclusive (handle e s))
  ∧ large (handle (SmallSwitch true) s) = false
  ∧ small (handle (LargeSwitch true) s) = false.
Proof.
  intros Hs.
  assert (Hex : exclusive s).
  { induction Hs as [|e s _ IH].
    - intros [Hsmall _]. discriminate Hsmall.
    - by apply handle_exclusive. }
  split; [apply initial_exclusive|]. split; [exact Hex|].
  split; [intros e; by apply handle_exclusive|].
  split; [apply handleSmallChange_true | apply handleLargeChange_true].
Qed.

(** An instance of C10: both sizes asked for, one after the other. *)
Lemma small_large_exclusive_witness :
  let s := run [SmallSwitch true; LargeSwitch true] initial in
  reachable s ∧ exclusive s ∧ small s = false ∧ large s = true.
Proof.
  intros s.
  assert (Hs : reachable s) by apply run_reachable, reachable_initial.
  split; [exact Hs|].
  split; [exact (proj1 (proj2 (small_large_exclusive s Hs)))|]. split; reflexivity.
Defined.

End NumericInputBasicExampleSpec.

(** * Further properties *)

(** ** Object literals and class maps *)

Module ClassMapFacts.
Import Js JsFacts.

Lemma obj_set_fresh (k : string) (v : JsVal) (o : list (string * JsVal)) :
  k ∉ o.*1 → obj_set k v o = o ++ [(k, v)].
Proof.
  induction o as [|[k' v'] o IH]; simpl; intros Hk; [done|].
  apply not_elem_of_cons in Hk as [Hne Hk].
  rewrite (proj2 (String.eqb_neq k k')) by done. by rewrite IH.
Qed.

Lemma obj_literal_from (entries acc : list (string * JsVal)) :
  NoDup (acc.*1 ++ entries.*1) →
  fold_left (λ o kv, obj_set kv.1 kv.2 o) entries acc = acc ++ entries.
Proof.
  revert acc. induction entries as [|[k v] es IH]; intros acc Hnd; simpl.
  - by rewrite app_nil_r.
  - simpl in Hnd. rewrite obj_set_fresh.
    + rewrite IH.
      * by rewrite <- app_assoc.
      * rewrite fmap_app. simpl. by rewrite <- app_assoc.
    + apply NoDup_app in Hnd as (_ & Hdisj & _). intros Hin.
      apply (Hdisj k Hin). by left.
Qed.

(** An object literal with distinct keys keeps its entries as written. *)
Lemma obj_literal_NoDup (entries : list (string * JsVal)) :
  NoDup entries.*1 → obj_literal entries = entries.
Proof. intros Hnd. unfold obj_literal. by rewrite obj_literal_from. Qed.

(** A key that is one class name, among distinct keys none of which
    spells it, is in the classes of the map exactly when its value is
    truthy. *)
Lemma key_in_class_map (entries : list (string * JsVal)) (k : string) (v : JsVal) :
  NoDup entries.*1 →
  (k, v) ∈ entries →
  class_list k = [k] →
  (∀ k', k' ∈ entries.*1 → k' ≠ k → ¬ has_class k k') →
  k ∈ arg_classes (CDict entries) ↔ truthy v = true.
Proof.
  intros Hnd Hin Hsingle Hfresh.
  unfold arg_classes, arg_truthy, parseValue.
  rewrite obj_literal_NoDup by done.
  rewrite class_list_dict_from. simpl. rewrite list_elem_of_bind. split.
  - intros ([k' v'] & Hk & Hin'). simpl in Hk.
    destruct (truthy v') eqn:Hv'; [|by apply elem_of_nil in Hk].
    destruct (decide (k' = k)) as [->|Hne].
    + pose proof (elem_of_list_to_map_1 (M := gmap string) entries k v Hnd Hin) as Hv.
      pose proof (elem_of_list_to_map_1 (M := gmap string) entries k v' Hnd Hin') as Hv2.
      rewrite Hv in Hv2. by injection Hv2 as ->.
    + exfalso. apply (Hfresh k'); [|done..].
      apply list_elem_of_fmap. by exists (k', v').
  - intros Hv. exists (k, v). simpl. rewrite Hv, Hsingle. split; [by left|done].
Qed.

End ClassMapFacts.

(** ** MenuItem: what reaches the target element *)

Module MenuItemExtra.
Import Js React MenuItem JsFacts ClassMapFacts MenuItemSpec.

Section Target.
Variable Classes : ClassesT.

Lemma htmlProps_not_set_later (this : Instance) (k : string) (v : JsVal) :
  htmlProps this !! k = Some v → k ≠ "className" ∧ k ≠ "children".
Proof.
  rewrite htmlProps_lookup.
  destruct (decide (k ∈ DESTRUCTURED)) as [|Hout]; [done|]. intros _.
  split; intros ->; apply Hout; by_compute.
Qed.

(** X1.  On an item that is not disabled every HTML prop reaches the
    target with its value, [href], [onClick] and [tabIndex] included. *)
Theorem enabled_target_props (this : Instance) (k : string) (v : JsVal) :
  truthy (get (props this) "disabled") = false →
  htmlProps this !! k = Some v →
  elem_props (target Classes this) !! k = Some v.
Proof.
  intros Hdis Hk. destruct (htmlProps_not_set_later this k v Hk) as [Hc Hch].
  rewrite target_props_lookup by done. by rewrite Hdis, Hk.
Qed.

(** X2.  The [tabIndex] of the target is [-1] on a disabled item;
    otherwise it is the [tabIndex] of the props when they have one,
    and [0] when they have none. *)
Theorem target_tabIndex (this : Instance) :
  get (elem_props (target Classes this)) "tabIndex"
  = if truthy (get (props this) "disabled") then VNum (-1)
    else match props this !! "tabIndex" with
         | Some tabIndex => tabIndex
         | None => VNum 0
         end.
Proof.
  unfold get at 1. rewrite target_props_lookup by done.
  destruct (truthy (get (props this) "disabled")); [done|].
  rewrite htmlProps_lookup, decide_False by by_compute.
  assert (He : (∅ : Obj) !! "tabIndex" = None) by done. rewrite He.
  by destruct (props this !! "tabIndex").
Qed.

(** X3.  The props that [render] takes for itself never reach the
    target as attributes: no [active], [intent], [text], [popoverProps]
    and so on, whatever the prop bag. *)
Theorem component_props_not_forwarded (this : Instance) (k : string) :
  k ∈ DESTRUCTURED → k ≠ "className" → k ≠ "children" →
  elem_props (target Classes this) !! k = None.
Proof.
  intros Hin Hc Hch. rewrite target_props_lookup by done.
  rewrite htmlProps_lookup, decide_True by done.
  assert (Hd : DISABLED_PROPS !! k = None).
  { apply not_elem_of_list_to_map_1. simpl. intros Hk.
    unfold DESTRUCTURED in Hin.
    repeat (apply elem_of_cons in Hin as [->|Hin]; [revert Hk; by_compute|]).
    by apply elem_of_nil in Hin. }
  assert (Hb : (list_to_map [ ("role", targetRole this); ("tabIndex", VNum 0) ] : Obj) !! k
               = None).
  { apply not_elem_of_list_to_map_1. simpl. intros Hk.
    unfold DESTRUCTURED in Hin.
    repeat (apply elem_of_cons in Hin as [->|Hin]; [revert Hk; by_compute|]).
    by apply elem_of_nil in Hin. }
  destruct (truthy _); by rewrite ?Hd, ?Hb.
Qed.

(** X4.  The [icon] and [label] props are not among the props that
    [render] takes for itself: they reach the target as attributes, on
    disabled items too. *)
Theorem icon_label_forwarded (this : Instance) (k : string) (v : JsVal) :
  k = "icon" ∨ k = "label" →
  props this !! k = Some v →
  elem_props (target Classes this) !! k = Some v.
Proof.
  intros Hk Hv.
  assert (Hh : htmlProps this !! k = Some v).
  { rewrite htmlProps_lookup, decide_False; [done|].
    destruct Hk as [-> | ->]; by_compute. }
  destruct (htmlProps_not_set_later this k v Hh) as [Hc Hch].
  rewrite target_props_lookup by done. rewrite Hh.
  assert (Hd : DISABLED_PROPS !! k = None) by (destruct Hk as [-> | ->]; done).
  destruct (truthy _); by rewrite ?Hd.
Qed.

(** X5.  The class of the target always holds the classes of
    [MENU_ITEM] and the classes that the caller gives through [intent]
    and [className]; no HTML prop can replace it. *)
Theorem target_base_classes (this : Instance) (c : string) :
  has_class c Classes.(MENU_ITEM) ∨ has_class c (callerClasses Classes this) →
  get (elem_props (target Classes this)) "className"
  = VStr (targetClassName Classes this)
  ∧ has_class c (targetClassName Classes this).
Proof.
  intros Hc. rewrite targetClassName_anchorClasses. split; [apply target_className|].
  unfold anchorClasses. rewrite has_class_classNames.
  destruct Hc as [Hc|Hc].
  - exists (CVal (VStr Classes.(MENU_ITEM))). split; [by left|].
    unfold arg_classes. simpl.
    destruct (String.eqb_spec Classes.(MENU_ITEM) EmptyString) as [Hm|_]; [|done].
    rewrite Hm in Hc. by apply elem_of_nil in Hc.
  - unfold callerClasses in Hc. rewrite has_class_classNames in Hc.
    destruct Hc as (arg & Harg & Hc). exists arg. split; [|done].
    apply elem_of_cons in Harg as [->|Harg].
    + apply list_elem_of_further, list_elem_of_here.
    + apply list_elem_of_singleton in Harg as ->.
      do 3 apply list_elem_of_further. apply list_elem_of_here.
Qed.

(** A key of the class map is among the classes of the target exactly
    when its entry is truthy, as long as the caller's classes do not
    spell it. *)
Lemma map_class_iff (this : Instance) (k : string) (v : JsVal) :
  StateClassesWf Classes →
  (k, v) ∈ [ (Classes.(ACTIVE), get (props this) "active");
             (Classes.(DISABLED), get (props this) "disabled");
             (Classes.(POPOVER_DISMISS),
               js_and (js_and (get (props this) "shouldDismissPopover")
                              (js_not (get (props this) "disabled")))
                      (js_not (VBool (hasSubmenu this))));
             (Classes.(SELECTED),
               js_and (get (props this) "active")
                      (VBool (is_undefined
                                (Classes.(intentClass) (get (props this) "intent"))))) ] →
  ¬ has_class k (callerClasses Classes this) →
  has_class k (targetClassName Classes this) ↔ truthy v = true.
Proof.
  intros [Hnames Hsingle Hfresh] Hin Hcaller.
  assert (Hkey : k ∈ class_map_keys Classes).
  { apply (list_elem_of_fmap_2 fst) in Hin. exact Hin. }
  rewrite Forall_forall in Hsingle, Hfresh.
  specialize (Hsingle k Hkey). specialize (Hfresh k Hkey).
  rewrite Forall_forall in Hfresh.
  apply NoDup_cons in Hnames as [Hmenu Hkeys].
  unfold callerClasses in Hcaller. rewrite has_class_classNames in Hcaller.
  rewrite targetClassName_anchorClasses. unfold anchorClasses.
  rewrite has_class_classNames. split.
  - intros (arg & Harg & Hc).
    apply elem_of_cons in Harg as [->|Harg].
    { exfalso.
      apply (Hfresh Classes.(MENU_ITEM)); [by left|intros Heq; apply Hmenu; by rewrite Heq|].
      unfold arg_classes in Hc. simpl in Hc.
      destruct (negb _); [exact Hc|]. by apply elem_of_nil in Hc. }
    apply elem_of_cons in Harg as [->|Harg].
    { exfalso. apply Hcaller. eexists. split; [|exact Hc]. by left. }
    apply elem_of_cons in Harg as [->|Harg].
    { apply (key_in_class_map _ k v) in Hc; try done.
      intros k' Hk' Hne. apply Hfresh; [by right|done]. }
    apply list_elem_of_singleton in Harg as ->.
    exfalso. apply Hcaller. eexists. split; [|exact Hc].
    apply list_elem_of_further, list_elem_of_here.
  - intros Hv. eexists. split.
    { apply list_elem_of_further, list_elem_of_further, list_elem_of_here. }
    apply (key_in_class_map _ k v); try done.
    intros k' Hk' Hne. apply Hfresh; [by right|done].
Qed.

(** X6.  With class names that can be told apart and caller's classes
    that spell none of them, the target has the [ACTIVE] class exactly
    when [active] is truthy, the [DISABLED] class exactly when
    [disabled] is truthy, and the [SELECTED] class exactly when [active]
    is truthy and the intent gives no class: an active item with an
    intent is not marked selected. *)
Theorem state_classes (this : Instance) :
  StateClassesWf Classes →
  Forall (λ k, ¬ has_class k (callerClasses Classes this))
         [ Classes.(ACTIVE); Classes.(DISABLED); Classes.(SELECTED) ] →
  let cls := targetClassName Classes this in
  (has_class Classes.(ACTIVE) cls ↔ truthy (get (props this) "active") = true)
  ∧ (has_class Classes.(DISABLED) cls ↔ truthy (get (props this) "disabled") = true)
  ∧ (has_class Classes.(SELECTED) cls
     ↔ truthy (get (props this) "active") = true
       ∧ is_undefined (Classes.(intentClass) (get (props this) "intent")) = true).
Proof.
  intros Hwf Hcaller cls.
  apply Forall_cons in Hcaller as [Ha Hcaller].
  apply Forall_cons in Hcaller as [Hd Hcaller].
  apply Forall_cons in Hcaller as [Hs _].
  split; [|split].
  - apply map_class_iff; [done| |done]. apply list_elem_of_here.
  - apply map_class_iff; [done| |done].
    apply list_elem_of_further, list_elem_of_here.
  - unfold cls. rewrite map_class_iff; [|done| |done].
    2:{ do 3 apply list_elem_of_further. apply list_elem_of_here. }
    rewrite truthy_and. simpl. by rewrite andb_true_iff.
Qed.

(** *** The children of the target *)

Lemma target_icon_child (this : Instance) :
  nth_child 0 (target Classes this)
  = if nullish (icon this) then VUndef else iconElement Classes (icon this).
Proof.
  unfold nth_child, target, createElement, elem_props. rewrite get_insert_eq.
  unfold hasIcon. simpl. by destruct (nullish (icon this)).
Qed.

Lemma icon_from_props (this : Instance) :
  icon this
  = if is_string "listoption" (get (props this) "roleStructure")
    then coalesce (get (props this) "icon")
           (if is_undefined (get (props this) "selected") then VUndef
            else if truthy (get (props this) "selected")
                 then VStr "small-tick" else VStr "blank")
    else get (props this) "icon".
Proof.
  unfold icon, roles, roleStructure, get_default.
  by destruct (get (props this) "roleStructure") as [| | | |s| | | | |];
    simpl; try destruct (String.eqb s "listoption").
Qed.

(** X7.  An [icon] prop that is neither null nor undefined is the icon
    of the item, whatever [roleStructure] and [selected] are: the first
    child of the target is the icon wrapper around that icon. *)
Theorem explicit_icon_precedence (this : Instance) :
  nullish (get (props this) "icon") = false →
  nth_child 0 (target Classes this) = iconElement Classes (get (props this) "icon").
Proof.
  intros Hicon. rewrite target_icon_child, icon_from_props.
  unfold coalesce. rewrite Hicon.
  destruct (is_string _ _); by rewrite Hicon.
Qed.

(** X8.  Without an [icon] prop, an item of a listbox whose [selected]
    prop is defined shows a tick when it is selected and a blank icon
    when it is not; it shows no icon when [selected] is undefined, and
    a menu item (any other [roleStructure]) never shows one. *)
Theorem selection_icon (this : Instance) :
  nullish (get (props this) "icon") = true →
  nth_child 0 (target Classes this)
  = if is_string "listoption" (get (props this) "roleStructure")
       && negb (is_undefined (get (props this) "selected"))
    then iconElement Classes
           (VStr (if truthy (get (props this) "selected") then "small-tick" else "blank"))
    else VUndef.
Proof.
  intros Hicon. rewrite target_icon_child, icon_from_props.
  unfold coalesce. rewrite Hicon.
  destruct (is_string _ _); simpl; [|by rewrite Hicon].
  destruct (is_undefined _); simpl; [done|].
  by destruct (truthy _).
Qed.

(** X9.  The third child of the target is [null] when both [label] and
    [labelElement] are null or undefined.  Otherwise it is a [<span>]
    holding the label and then the label element, whose classes are
    those of [MENU_ITEM_LABEL] followed by those of [labelClassName]. *)
Theorem label_rendering (this : Instance) :
  let label := get (props this) "label" in
  let labelElement := get (props this) "labelElement" in
  let rendered := nth_child 2 (target Classes this) in
  if nullish label && nullish labelElement
  then rendered = VNull
  else elem_type rendered = VStr "span"
       ∧ get (elem_props rendered) "children" = VArr [label; labelElement]
       ∧ ∃ className,
           get (elem_props rendered) "className" = VStr className
           ∧ class_list className
             = class_list Classes.(MENU_ITEM_LABEL)
               ++ arg_classes (CVal (get (props this) "labelClassName")).
Proof.
  intros label labelElement rendered.
  assert (Hr : rendered = maybeRenderLabel Classes this labelElement).
  { unfold rendered, nth_child, target, createElement, elem_props.
    by rewrite get_insert_eq. }
  rewrite Hr. unfold maybeRenderLabel. fold label.
  destruct (nullish label && nullish labelElement); [done|].
  split; [done|]. split; [apply get_insert_eq|].
  eexists. split.
  - unfold createElement, elem_props. rewrite get_insert_ne by done.
    unfold get. by rewrite lookup_singleton_eq.
  - rewrite class_list_classNames. simpl. rewrite app_nil_r.
    f_equal. unfold arg_classes. simpl.
    by destruct (String.eqb_spec Classes.(MENU_ITEM_LABEL) EmptyString) as [->|_].
Qed.

(** *** Default props *)

Lemma mount_get (config : Obj) (k : string) :
  get (props (mount config)) k
  = if is_undefined (get config k) then get defaultProps k else get config k.
Proof.
  unfold mount, resolveDefaultProps, get. simpl. rewrite lookup_merge.
  destruct (config !! k) as [c|], (defaultProps !! k) as [d|]; simpl; try done;
    by destruct (is_undefined c) eqn:Hc; try done; destruct c.
Qed.

(** X10.  After mounting, a prop reads its default exactly when the
    caller left it undefined ([null] is kept); [active], [disabled],
    [multiline], [popoverProps], [shouldDismissPopover] and [text] are
    never undefined; and resolving the defaults twice changes nothing. *)
Theorem mount_resolves_defaults (config : Obj) :
  (∀ k, get (props (mount config)) k
        = if is_undefined (get config k) then get defaultProps k else get config k)
  ∧ Forall (λ k, is_undefined (get (props (mount config)) k) = false)
           [ "active"; "disabled"; "multiline"; "popoverProps";
             "shouldDismissPopover"; "text" ]
  ∧ props (mount (props (mount config))) = props (mount config).
Proof.
  split; [apply mount_get|]. split.
  - repeat (apply Forall_cons; split; [rewrite mount_get; by destruct (get config _)|]).
    apply Forall_nil_2.
  - apply map_eq. intros k. unfold mount, resolveDefaultProps. simpl.
    rewrite !lookup_merge.
    destruct (config !! k) as [c|], (defaultProps !! k) as [d|]; simpl; try done.
    + destruct (is_undefined c) eqn:Hc; simpl; [|by rewrite Hc].
      by destruct (is_undefined d) eqn:Hd; try done; destruct d.
    + by destruct (is_undefined d) eqn:Hd; try done; destruct d.
Qed.

(** X11.  The second child of the target of a mounted item is the
    [Text] of the item: it holds the [text] prop, or the empty string
    when the caller gives none; it is cut with an ellipsis unless
    [multiline] is truthy; its title is [htmlTitle]; and its classes
    are those of [FILL] followed by those of [textClassName]. *)
Theorem text_rendering (config : Obj) :
  let text := nth_child 1 (target Classes (mount config)) in
  elem_type text = VComp "Text"
  ∧ get (elem_props text) "children"
    = (if is_undefined (get config "text") then VStr EmptyString else get config "text")
  ∧ get (elem_props text) "ellipsize" = VBool (negb (truthy (get config "multiline")))
  ∧ get (elem_props text) "title" = get config "htmlTitle"
  ∧ ∃ className,
      get (elem_props text) "className" = VStr className
      ∧ class_list className
        = class_list Classes.(FILL) ++ arg_classes (CVal (get config "textClassName")).
Proof.
  intros text.
  assert (Ht : text
    = createElement (VComp "Text")
        (list_to_map
           [ ("className",
               VStr (classNames [CVal (VStr Classes.(FILL));
                                 CVal (get (props (mount config)) "textClassName")]));
             ("ellipsize", js_not (get (props (mount config)) "multiline"));
             ("title", get (props (mount config)) "htmlTitle") ])
        [ get (props (mount config)) "text" ]).
  { unfold text, nth_child, target, createElement, elem_props.
    by rewrite get_insert_eq. }
  rewrite Ht, !mount_get. clear Ht text.
  split; [done|]. split; [apply get_insert_eq|]. split; [|split].
  - unfold createElement, elem_props. rewrite get_insert_ne by done.
    unfold get at 1. simpl. rewrite lookup_insert_ne by done.
    rewrite lookup_insert_eq. simpl. unfold js_not.
    by destruct (get config "multiline").
  - unfold createElement, elem_props. rewrite get_insert_ne by done.
    unfold get at 1. simpl. do 2 rewrite lookup_insert_ne by done.
    rewrite lookup_insert_eq. simpl. by destruct (get config "htmlTitle").
  - eexists. split.
    + unfold createElement, elem_props. rewrite get_insert_ne by done.
      unfold get. simpl. by rewrite lookup_insert_eq.
    + rewrite class_list_classNames. simpl. rewrite app_nil_r.
      f_equal.
      * unfold arg_classes. simpl.
        by destruct (String.eqb_spec Classes.(FILL) EmptyString) as [->|_].
      * unfold get. by destruct (config !! "textClassName") as [[]|].
Qed.

(** *** The submenu *)

Lemma submenu_popover_element (this : Instance) :
  nullish (get (props this) "children") = false →
  get (elem_props (render Classes this)) "children"
  = VElement (VComp "Popover")
      (<["children" := target Classes this]>
         (<["popoverClassName" :=
              VStr (classNames
                      [CVal (VStr Classes.(MENU_SUBMENU));
                       CVal (opt_get (get (props this) "popoverProps") "popoverClassName")])]>
            (<["minimal" := VBool true]>
               (<["content" :=
                    createElement (VComp "Menu")
                      (spread ∅ (get (props this) "submenuProps"))
                      [get (props this) "children"]]>
                  (spread (submenuPopoverDefaults this) (get (props this) "popoverProps")))))).
Proof.
  intros Hnull. rewrite render_children. unfold maybeRenderPopover. by rewrite Hnull.
Qed.

(** X12.  The submenu popover is always minimal, and the classes of
    its [popoverClassName] always start with those of [MENU_SUBMENU].
    Apart from [content], [minimal], [popoverClassName], [children],
    [key] and [ref],
    an entry of [popoverProps] that is not undefined reaches the
    popover with its value, and a prop that [popoverProps] does not
    have takes the submenu default when that is not undefined: hover
    interaction, no portal, no hover delay.  (A prop left undefined is
    for the defaults of [Popover] itself to fill.) *)
Theorem submenu_popover_props (this : Instance) (k : string) (v : JsVal) :
  nullish (get (props this) "children") = false →
  k ∉ [ "content"; "minimal"; "popoverClassName"; "children"; "key"; "ref" ] →
  match own_props (get (props this) "popoverProps") !! k with
  | Some given => Some given
  | None => submenuPopoverDefaults this !! k
  end = Some v →
  is_undefined v = false →
  ∃ popoverProps className,
    get (elem_props (render Classes this)) "children"
    = VElement (VComp "Popover") popoverProps
    ∧ popoverProps !! "minimal" = Some (VBool true)
    ∧ popoverProps !! "popoverClassName" = Some (VStr className)
    ∧ class_list className
      = class_list Classes.(MENU_SUBMENU)
        ++ arg_classes (CVal (opt_get (get (props this) "popoverProps") "popoverClassName"))
    ∧ popoverProps !! k = Some v.
Proof.
  intros Hnull Hk Hv _. eexists _, _. split; [by apply submenu_popover_element|].
  apply not_elem_of_cons in Hk as [Hk1 Hk].
  apply not_elem_of_cons in Hk as [Hk2 Hk].
  apply not_elem_of_cons in Hk as [Hk3 Hk].
  apply not_elem_of_cons in Hk as [Hk4 _].
  split; [|split; [|split]].
  - do 2 rewrite lookup_insert_ne by done. apply lookup_insert_eq.
  - rewrite lookup_insert_ne by done. apply lookup_insert_eq.
  - rewrite class_list_classNames. simpl. rewrite app_nil_r. f_equal.
    unfold arg_classes. simpl.
    by destruct (String.eqb_spec Classes.(MENU_SUBMENU) EmptyString) as [->|_].
  - do 4 rewrite lookup_insert_ne by done. unfold spread.
    rewrite lookup_assign. exact Hv.
Qed.

(** X13.  The [Menu] of the submenu takes every entry of
    [submenuProps] but [children]: its children are always the
    children of the item. *)
Theorem submenu_menu_props (this : Instance) (k : string) :
  nullish (get (props this) "children") = false →
  k ≠ "children" →
  ∃ popoverProps menuProps,
    get (elem_props (render Classes this)) "children"
    = VElement (VComp "Popover") popoverProps
    ∧ popoverProps !! "content" = Some (VElement (VComp "Menu") menuProps)
    ∧ menuProps !! "children" = Some (get (props this) "children")
    ∧ menuProps !! k = own_props (get (props this) "submenuProps") !! k.
Proof.
  intros Hnull Hk. eexists _, _. split; [by apply submenu_popover_element|].
  split; [|split].
  - do 3 rewrite lookup_insert_ne by done. apply lookup_insert_eq.
  - apply lookup_insert_eq.
  - rewrite lookup_insert_ne by done. unfold spread. rewrite lookup_assign.
    by destruct (own_props _ !! k).
Qed.

(** X14.  The classes of the [<li>] are those of [MENU_SUBMENU] when
    the item has children, and none otherwise. *)
Theorem li_submenu_class (this : Instance) :
  ∃ className,
    get (elem_props (render Classes this)) "className" = VStr className
    ∧ class_list className
      = if nullish (get (props this) "children") then []
        else class_list Classes.(MENU_SUBMENU).
Proof.
  exists (liClasses Classes this). split.
  - unfold get. by rewrite render_props_lookup.
  - unfold liClasses. rewrite class_list_classNames. simpl. rewrite app_nil_r.
    unfold arg_classes, arg_truthy, parseValue.
    rewrite obj_literal_NoDup by (apply NoDup_singleton).
    rewrite class_list_dict_from. simpl. unfold hasSubmenu.
    destruct (nullish _); simpl; [done|]. by rewrite app_nil_r.
Qed.

End Target.

(** *** Instances *)

Lemma bp5_state_wf : StateClassesWf bp5.
Proof. split; by_compute. Defined.

(** An instance of X1: an enabled link keeps its [href] and its [tabIndex]. *)
Lemma enabled_target_props_witness :
  let this :=
    mount (list_to_map [ ("text", VStr "Docs"); ("href", VStr "/docs");
                         ("tabIndex", VNum 3) ]) in
  truthy (get (props this) "disabled") = false
  ∧ htmlProps this !! "href" = Some (VStr "/docs")
  ∧ elem_props (target bp5 this) !! "href" = Some (VStr "/docs").
Proof.
  intros this. split; [vm_compute; reflexivity|]. split; [vm_compute; reflexivity|].
  apply (enabled_target_props bp5 this "href" (VStr "/docs")); vm_compute; reflexivity.
Defined.

(** An instance of X3: the [intent] of an item is no attribute of its target. *)
Lemma component_props_not_forwarded_witness :
  let this := mount (list_to_map [ ("text", VStr "Delete"); ("intent", VStr "danger") ]) in
  "intent" ∈ DESTRUCTURED
  ∧ elem_props (target bp5 this) !! "intent" = None.
Proof.
  intros this. assert (Hin : "intent" ∈ DESTRUCTURED) by by_compute.
  split; [exact Hin|].
  apply (component_props_not_forwarded bp5 this "intent" Hin); by_compute.
Defined.

(** An instance of X4: the [icon] of a disabled item is an attribute of its target. *)
Lemma icon_label_forwarded_witness :
  let this :=
    mount (list_to_map [ ("text", VStr "Cut"); ("icon", VStr "cut");
                         ("disabled", VBool true) ]) in
  props this !! "icon" = Some (VStr "cut")
  ∧ elem_props (target bp5 this) !! "icon" = Some (VStr "cut").
Proof.
  intros this. split; [vm_compute; reflexivity|].
  apply (icon_label_forwarded bp5 this "icon" (VStr "cut")).
  - by left.
  - vm_compute; reflexivity.
Defined.

(** An instance of X5: a class of the caller is a class of the target. *)
Lemma target_base_classes_witness :
  let this := mount (list_to_map [ ("text", VStr "Open"); ("className", VStr "wide tall") ]) in
  has_class "tall" (callerClasses bp5 this)
  ∧ get (elem_props (target bp5 this)) "className" = VStr (targetClassName bp5 this)
  ∧ has_class "tall" (targetClassName bp5 this).
Proof.
  intros this. assert (Hc : has_class "tall" (callerClasses bp5 this)) by by_compute.
  split; [exact Hc|]. apply (target_base_classes bp5 this "tall"). by right.
Defined.

(** An instance of X6: an active item with an intent is active and not selected. *)
Lemma state_classes_witness :
  let this :=
    mount (list_to_map [ ("text", VStr "Open"); ("active", VBool true);
                         ("intent", VStr "primary") ]) in
  let cls := targetClassName bp5 this in
  StateClassesWf bp5
  ∧ Forall (λ k, ¬ has_class k (callerClasses bp5 this))
           [ bp5.(ACTIVE); bp5.(DISABLED); bp5.(SELECTED) ]
  ∧ has_class bp5.(ACTIVE) cls
  ∧ ¬ has_class bp5.(DISABLED) cls
  ∧ ¬ has_class bp5.(SELECTED) cls.
Proof.
  intros this cls.
  assert (Hcaller : Forall (λ k, ¬ has_class k (callerClasses bp5 this))
                           [ bp5.(ACTIVE); bp5.(DISABLED); bp5.(SELECTED) ]) by by_compute.
  split; [exact bp5_state_wf|]. split; [exact Hcaller|].
  destruct (state_classes bp5 this bp5_state_wf Hcaller) as (Ha & Hd & Hs).
  split; [|split].
  - apply Ha. vm_compute; reflexivity.
  - intros Hc. apply Hd in Hc. vm_compute in Hc. discriminate Hc.
  - intros Hc. apply Hs in Hc as [_ Hi]. vm_compute in Hi. discriminate Hi.
Defined.

(** An instance of X7: the icon of a selected option wins over the tick. *)
Lemma explicit_icon_precedence_witness :
  let this :=
    mount (list_to_map [ ("text", VStr "Casablanca"); ("icon", VStr "film");
                         ("roleStructure", VStr "listoption");
                         ("selected", VBool true) ]) in
  nullish (get (props this) "icon") = false
  ∧ nth_child 0 (target bp5 this) = iconElement bp5 (VStr "film").
Proof.
  intros this. split; [vm_compute; reflexivity|].
  apply (explicit_icon_precedence bp5 this). vm_compute; reflexivity.
Defined.

(** An instance of X8: an option that is not selected has the blank icon. *)
Lemma selection_icon_witness :
  let this :=
    mount (list_to_map [ ("text", VStr "Casablanca");
                         ("roleStructure", VStr "listoption");
                         ("selected", VBool false) ]) in
  nullish (get (props this) "icon") = true
  ∧ nth_child 0 (target bp5 this) = iconElement bp5 (VStr "blank").
Proof.
  intros this. split; [vm_compute; reflexivity|].
  apply (selection_icon bp5 this). vm_compute; reflexivity.
Defined.

(** An instance of X12: a submenu asked to use a portal and not to be
    minimal uses the portal and stays minimal. *)
Lemma submenu_popover_props_witness :
  let this :=
    mount (list_to_map
             [ ("text", VStr "More");
               ("children", VElement (VComp "MenuItem") ∅);
               ("popoverProps",
                 VObj (list_to_map [ ("usePortal", VBool true);
                                     ("minimal", VBool false) ])) ]) in
  nullish (get (props this) "children") = false
  ∧ own_props (get (props this) "popoverProps") !! "usePortal" = Some (VBool true)
  ∧ ∃ popoverProps,
      get (elem_props (render bp5 this)) "children" = VElement (VComp "Popover") popoverProps
      ∧ popoverProps !! "minimal" = Some (VBool true)
      ∧ popoverProps !! "usePortal" = Some (VBool true).
Proof.
  intros this. split; [vm_compute; reflexivity|]. split; [vm_compute; reflexivity|].
  destruct (submenu_popover_props bp5 this "usePortal" (VBool true))
    as (pp & cn & Hpp & Hmin & _ & _ & Hk).
  - vm_compute; reflexivity.
  - by_compute.
  - vm_compute; reflexivity.
  - reflexivity.
  - exists pp. split; [exact Hpp|]. split; [exact Hmin|]. exact Hk.
Defined.

(** An instance of X13: the [className] of [submenuProps] reaches the menu. *)
Lemma submenu_menu_props_witness :
  let this :=
    mount (list_to_map
             [ ("text", VStr "More");
               ("children", VStr "soon");
               ("submenuProps",
                 VObj (list_to_map [ ("className", VStr "narrow");
                                     ("children", VStr "never") ])) ]) in
  nullish (get (props this) "children") = false
  ∧ ∃ popoverProps menuProps,
      get (elem_props (render bp5 this)) "children" = VElement (VComp "Popover") popoverProps
      ∧ popoverProps !! "content" = Some (VElement (VComp "Menu") menuProps)
      ∧ menuProps !! "children" = Some (VStr "soon")
      ∧ menuProps !! "className" = Some (VStr "narrow").
Proof.
  intros this. split; [vm_compute; reflexivity|].
  destruct (submenu_menu_props bp5 this "className")
    as (pp & mp & Hpp & Hcontent & Hch & Hk).
  - vm_compute; reflexivity.
  - done.
  - exists pp, mp. split; [exact Hpp|]. split; [exact Hcontent|].
    split; [exact Hch|]. exact Hk.
Defined.

End MenuItemExtra.

(** ** OmnibarExample: toasts, options and the props of the omnibar *)

Module OmnibarExampleExtra.
Import Js React JsFacts OmnibarExample.

Lemma handle_toaster (e : Event) (this : Component) :
  toaster (handle e this)
  = toaster this
    ++ match e with OmnibarItemSelect film => [selectionToast film] | _ => [] end.
Proof. destruct e; simpl; by rewrite ?app_nil_r. Qed.

(** X15.  After any sequence of events the toaster has shown, in
    order, one toast per selected film, carrying its title, and
    nothing else: no other event shows a toast. *)
Theorem toasts_follow_selections (es : list Event) (this : Component) :
  toaster (run es this) = toaster this ++ (selectionToast <$> selections es).
Proof.
  unfold run, selections. revert this.
  induction es as [|e es IH]; intros this; simpl.
  - by rewrite app_nil_r.
  - rewrite IH, handle_toaster, fmap_app, <- app_assoc. f_equal.
    by destruct e.
Qed.

(** X16.  A change of a switch of the options panel shows in that
    switch when the panel is rendered again, leaves the other switch
    as it was, and neither opens nor closes the omnibar. *)
Theorem options_switch_round_trip (this : Component) (i : nat) (switch : Switch)
    (flag : bool) :
  renderOptions this !! i = Some switch →
  let this' := handle (switch.(onChange) flag) this in
  (∃ switch',
     renderOptions this' !! i = Some switch'
     ∧ switch'.(label) = switch.(label)
     ∧ switch'.(checked) = flag)
  ∧ (∀ j other,
       j ≠ i → renderOptions this !! j = Some other →
       ∃ other', renderOptions this' !! j = Some other'
                 ∧ other'.(label) = other.(label)
                 ∧ other'.(checked) = other.(checked))
  ∧ isOpen (state this') = isOpen (state this)
  ∧ toaster this' = toaster this.
Proof.
  intros Hi. destruct i as [|[|i]]; simpl in Hi; [| |done];
    injection Hi as <-; simpl.
  - split; [by eexists|]. split; [|done].
    intros [|[|j]] other Hj Hother; simpl in *; [done| |done].
    injection Hother as <-. by eexists.
  - split; [by eexists|]. split; [|done].
    intros [|[|j]] other Hj Hother; simpl in *; [|done|done].
    injection Hother as <-. by eexists.
Qed.

(** X17.  The omnibar gets [createNewItemFromQuery] and
    [createNewItemRenderer] together, and exactly when the "allow
    create" switch was last set on; the props it gets from the state
    are the flags of the state. *)
Theorem omnibar_creation_props (TOP_100_FILMS : JsVal) (this : Component) (flag : bool) :
  let this' := handle (AllowCreateSwitch flag) this in
  let omnibar := omnibarProps TOP_100_FILMS this' in
  nullish (get omnibar "createNewItemFromQuery") = negb flag
  ∧ nullish (get omnibar "createNewItemRenderer") = negb flag
  ∧ get omnibar "allowCreate" = VBool flag
  ∧ get omnibar "isOpen" = VBool (isOpen (state this))
  ∧ get omnibar "resetOnSelect" = VBool (resetOnSelect (state this)).
Proof. intros this' omnibar. by destruct flag. Qed.

Lemma default_last_cons {A : Type} (before flag : A) (later : option A) :
  default before (match later with Some y => Some y | None => Some flag end)
  = default flag later.
Proof. by destruct later. Qed.

(** X18.  After any sequence of events [allowCreate] is the flag of
    the last change of its switch, and what it was before when the
    switch was not touched; likewise [resetOnSelect].  Opening,
    closing, toggling and selecting never change the options. *)
Theorem options_after_run (es : list Event) (this : Component) :
  allowCreate (state (run es this))
  = default (allowCreate (state this))
      (last (es ≫= λ e, match e with AllowCreateSwitch flag => [flag] | _ => [] end))
  ∧ resetOnSelect (state (run es this))
    = default (resetOnSelect (state this))
        (last (es ≫= λ e, match e with ResetSwitch flag => [flag] | _ => [] end)).
Proof.
  unfold run. revert this. induction es as [|e es IH]; intros this; [done|].
  simpl. destruct (IH (handle e this)) as [-> ->].
  split.
  - destruct e; simpl; try reflexivity.
    rewrite last_cons. symmetry. apply default_last_cons.
  - destruct e; simpl; try reflexivity.
    rewrite last_cons. symmetry. apply default_last_cons.
Qed.

(** An instance of X16: the "allow create" switch. *)
Lemma options_switch_round_trip_witness :
  let switch := {| label := "Allow creating new films"; checked := false;
                   onChange := AllowCreateSwitch |} in
  renderOptions initial !! 1%nat = Some switch
  ∧ ∃ switch',
      renderOptions (handle (switch.(onChange) true) initial) !! 1%nat = Some switch'
      ∧ switch'.(label) = switch.(label)
      ∧ switch'.(checked) = true.
Proof.
  intros switch. split; [reflexivity|].
  exact (proj1 (options_switch_round_trip initial 1 switch true eq_refl)).
Defined.

End OmnibarExampleExtra.

(** ** The "No results." row of the omnibar *)

Module NoResultsRow.
Import Js React JsFacts MenuItem MenuItemSpec MenuItemExtra.

(** X19.  The row that the omnibar shows when nothing matches is a
    disabled menu item: its target has [tabIndex] [-1] and no click
    handler, it has the [DISABLED] class and, disabled as it is, not
    the popover-dismiss class. *)
Theorem no_results_row (Classes : ClassesT) (TOP_100_FILMS : JsVal)
    (this : OmnibarExample.Component) :
  let row :=
    mount (elem_props (get (OmnibarExample.omnibarProps TOP_100_FILMS this) "noResults")) in
  StateClassesWf Classes →
  Forall (λ k, ¬ has_class k (callerClasses Classes row))
         [ Classes.(DISABLED); Classes.(POPOVER_DISMISS) ] →
  get (props row) "text" = VStr "No results."
  ∧ elem_props (target Classes row) !! "tabIndex" = Some (VNum (-1))
  ∧ elem_props (target Classes row) !! "onClick" = Some VUndef
  ∧ has_class Classes.(DISABLED) (targetClassName Classes row)
  ∧ ¬ has_class Classes.(POPOVER_DISMISS) (targetClassName Classes row).
Proof.
  intros row Hwf Hcaller.
  apply Forall_cons in Hcaller as [Hd Hcaller].
  apply Forall_cons in Hcaller as [Hp _].
  assert (Hdis : get (props row) "disabled" = VBool true) by (vm_compute; reflexivity).
  split; [vm_compute; reflexivity|].
  split; [rewrite target_props_lookup by done; by rewrite Hdis|].
  split; [rewrite target_props_lookup by done; by rewrite Hdis|].
  split.
  - apply (map_class_iff Classes row _ (get (props row) "disabled"));
      [done| |done|by rewrite Hdis].
    apply list_elem_of_further, list_elem_of_here.
  - intros Hc.
    apply (map_class_iff Classes row _
             (js_and (js_and (get (props row) "shouldDismissPopover")
                             (js_not (get (props row) "disabled")))
                     (js_not (VBool (hasSubmenu row))))) in Hc; [|done| |done].
    + rewrite !truthy_and, truthy_not, Hdis in Hc. cbn [truthy negb] in Hc.
      rewrite andb_false_r in Hc. discriminate Hc.
    + do 2 apply list_elem_of_further. apply list_elem_of_here.
Qed.

(** An instance of X19: the row under the Blueprint 5 class table. *)
Lemma no_results_row_witness :
  let row :=
    mount (elem_props (get (OmnibarExample.omnibarProps (VArr []) OmnibarExample.initial)
                           "noResults")) in
  StateClassesWf bp5
  ∧ Forall (λ k, ¬ has_class k (callerClasses bp5 row))
           [ bp5.(DISABLED); bp5.(POPOVER_DISMISS) ]
  ∧ elem_props (target bp5 row) !! "tabIndex" = Some (VNum (-1))
  ∧ has_class bp5.(DISABLED) (targetClassName bp5 row)
  ∧ ¬ has_class bp5.(POPOVER_DISMISS) (targetClassName bp5 row).
Proof.
  intros row.
  assert (Hcaller : Forall (λ k, ¬ has_class k (callerClasses bp5 row))
                           [ bp5.(DISABLED); bp5.(POPOVER_DISMISS) ]) by by_compute.
  split; [exact bp5_state_wf|]. split; [exact Hcaller|].
  destruct (no_results_row bp5 (VArr []) OmnibarExample.initial bp5_state_wf Hcaller)
    as (_ & Htab & _ & Hdis & Hdismiss).
  split; [exact Htab|]. split; [exact Hdis|]. exact Hdismiss.
Defined.

End NoResultsRow.

(** ** NumericInputBasicExample: switches and sizes *)

Module NumericInputBasicExampleExtra.
Import NumericInputBasicExample.

(** X20.  A change of a switch of the options panel shows in that
    switch when the panel is rendered again, under the same label. *)
Theorem switch_round_trip (s : NumericInputProps) (i : nat) (switch : Switch)
    (flag : bool) :
  renderOptionsSwitches s !! i = Some switch →
  ∃ switch',
    renderOptionsSwitches (handle (switch.(onChange) flag) s) !! i = Some switch'
    ∧ switch'.(label) = switch.(label)
    ∧ switch'.(checked) = flag.
Proof.
  intros Hi. destruct s.
  do 9 (destruct i as [|i];
        [injection Hi as <-; eexists; split; [reflexivity|]; by destruct flag|]).
  done.
Qed.

(** X21.  A change of a switch leaves every other switch as it was,
    but for the two sizes: switching [Large] on switches [Small] off,
    and switching [Small] on switches [Large] off. *)
Theorem switch_independence (s : NumericInputProps) (i j : nat) (switch other : Switch)
    (flag : bool) :
  renderOptionsSwitches s !! i = Some switch →
  renderOptionsSwitches s !! j = Some other →
  i ≠ j →
  ∃ other',
    renderOptionsSwitches (handle (switch.(onChange) flag) s) !! j = Some other'
    ∧ other'.(label) = other.(label)
    ∧ other'.(checked)
      = if flag && bool_decide ((switch.(label), other.(label))
                                ∈ [ ("Large", "Small"); ("Small", "Large") ])
        then false
        else other.(checked).
Proof.
  intros Hi Hj Hne. destruct s.
  do 9 (destruct i as [|i];
        [injection Hi as <-;
         do 9 (destruct j as [|j];
               [first [ done
                      | injection Hj as <-; eexists; split; [reflexivity|];
                        split; [reflexivity|]; by destruct flag ]|]);
         done|]).
  done.
Qed.

(** X22.  Every event of the example is idempotent: handling it a
    second time changes nothing. *)
Theorem handle_idempotent (e : Event) (s : NumericInputProps) :
  handle e (handle e s) = handle e s.
Proof. destruct s, e as [| | | | | | |[|]|[|]| | | | | |]; reflexivity. Qed.

(** X23.  No event but the two size switches touches [small] or
    [large]; switching a size off leaves the other size as it was. *)
Theorem sizes_frame (e : Event) (s : NumericInputProps) :
  small (handle e s)
  = match e with
    | SmallSwitch flag => flag
    | LargeSwitch true => false
    | _ => small s
    end
  ∧ large (handle e s)
    = match e with
      | LargeSwitch flag => flag
      | SmallSwitch true => false
      | _ => large s
      end.
Proof. destruct s, e as [| | | | | | |[|]|[|]| | | | | |]; split; reflexivity. Qed.

(** An instance of X20: the "Left icon" switch. *)
Lemma switch_round_trip_witness :
  let switch := renderSwitch "Left icon" false LeftIconSwitch in
  renderOptionsSwitches initial !! 4%nat = Some switch
  ∧ ∃ switch',
      renderOptionsSwitches (handle (switch.(onChange) true) initial) !! 4%nat
      = Some switch'
      ∧ switch'.(label) = "Left icon"
      ∧ switch'.(checked) = true.
Proof.
  intros switch. split; [reflexivity|].
  exact (switch_round_trip initial 4 switch true eq_refl).
Defined.

(** An instance of X21: switching [Large] on switches [Small] off. *)
Lemma switch_independence_witness :
  let s := handle (SmallSwitch true) initial in
  let large := renderSwitch "Large" false LargeSwitch in
  let small := renderSwitch "Small" true SmallSwitch in
  renderOptionsSwitches s !! 2%nat = Some large
  ∧ renderOptionsSwitches s !! 3%nat = Some small
  ∧ ∃ small',
      renderOptionsSwitches (handle (large.(onChange) true) s) !! 3%nat = Some small'
      ∧ small'.(label) = "Small"
      ∧ small'.(checked) = false.
Proof.
  intros s large small. split; [reflexivity|]. split; [reflexivity|].
  apply (switch_independence s 2 3 large small true eq_refl eq_refl). lia.
Defined.

End NumericInputBasicExampleExtra.

(** ** The helpers of the [<Select>] test suite *)

Module SelectSuiteSpec.
Import Js React JsFacts SelectSuite.

Lemma filterByYear_true (query : string) (film : Film) :
  filterByYear query film = true ↔ query = EmptyString ∨ toString (year film) = query.
Proof.
  unfold filterByYear. rewrite orb_true_iff, !String.eqb_eq. done.
Qed.

(** Safe integers with the same numeral are the same number. *)
Lemma toString_inj (n m : SafeInteger) : toString n = toString m → n = m.
Proof.
  destruct n as [n Hn], m as [m Hm]. unfold toString. simpl.
  intros Heq. apply (inj pretty) in Heq. subst m. f_equal. apply proof_irrel.
Qed.

(** X24.  A query that is not empty keeps the films of one year only:
    two films that it keeps have the same year. *)
Theorem filterByYear_same_year (query : string) (film1 film2 : Film) :
  query ≠ EmptyString →
  filterByYear query film1 = true →
  filterByYear query film2 = true →
  year film1 = year film2.
Proof.
  intros Hq H1 H2.
  apply filterByYear_true in H1 as [H1|H1]; [done|].
  apply filterByYear_true in H2 as [H2|H2]; [done|].
  apply toString_inj. by rewrite H1, H2.
Qed.

(** X26.  [select(props)] gives the component every prop of the
    caller as it is, then the spies, then the defaults: a
    [popoverProps] of the caller replaces the default one whole, its
    [isOpen: true] included. *)
Theorem select_props_precedence (TOP_100_FILMS : JsVal) (props : Obj) (k : string) :
  k ≠ "children" →
  elem_props (select TOP_100_FILMS props) !! k
  = match props !! k with
    | Some v => Some v
    | None =>
        match handlers !! k with
        | Some spy => Some spy
        | None => defaultProps TOP_100_FILMS !! k
        end
    end.
Proof.
  intros Hk. unfold select, createElement, elem_props.
  rewrite lookup_insert_ne by done. rewrite !lookup_assign.
  destruct (props !! k); [done|]. destruct (handlers !! k); [done|].
  by destruct (defaultProps TOP_100_FILMS !! k).
Qed.

(** An instance of X24: two films of 1994. *)
Lemma filterByYear_same_year_witness :
  let film1 := {| title := "Pulp Fiction";
                  year := {| value := 1994; value_safe := I |}; rank := 8 |} in
  let film2 := {| title := "Forrest Gump";
                  year := {| value := 1994; value_safe := I |}; rank := 13 |} in
  "1994" ≠ EmptyString
  ∧ filterByYear "1994" film1 = true
  ∧ filterByYear "1994" film2 = true
  ∧ year film1 = year film2.
Proof.
  intros film1 film2.
  assert (Hq : "1994" ≠ EmptyString) by discriminate.
  assert (H1 : filterByYear "1994" film1 = true) by (vm_compute; reflexivity).
  assert (H2 : filterByYear "1994" film2 = true) by (vm_compute; reflexivity).
  split; [exact Hq|]. split; [exact H1|]. split; [exact H2|].
  exact (filterByYear_same_year "1994" film1 film2 Hq H1 H2).
Defined.

(** An instance of X26: the popover of the keyboard test starts closed. *)
Lemma select_props_precedence_witness :
  let props : Obj :=
    {[ "popoverProps" := VObj (list_to_map [ ("usePortal", VBool false) ]) ]} in
  "popoverProps" ≠ "children"
  ∧ elem_props (select (VArr []) props) !! "popoverProps"
    = Some (VObj (list_to_map [ ("usePortal", VBool false) ])).
Proof.
  intros props. assert (Hk : "popoverProps" ≠ "children") by discriminate.
  split; [exact Hk|].
  exact (select_props_precedence (VArr []) props "popoverProps" Hk).
Defined.

End SelectSuiteSpec.
